(** * Madrasah API: the authentication and session core of [main.py]

    A shallow embedding of [hash_password], [create_default_admin], [login],
    [require_auth] and [dashboard], with the properties of the
    specification proved about them.

    Python [str] values are [string]s (the bytes of their UTF-8 encoding, so
    that [str.encode()] is the identity on the representation), Python
    dictionaries are [gmap string value], a store collection is the list of
    its documents in insertion order, and [datetime] values are integers that
    count microseconds. *)

From Stdlib Require Import ZArith List Ascii String Lia.
From Stdlib.Strings Require Import Byte.
From stdpp Require Import base list gmap strings.

Local Open Scope Z_scope.
Local Open Scope string_scope.

(** ** [hashlib.sha256]: FIPS 180-4 on 32-bit words kept in [Z] *)

Module SHA256.

Definition w32 (x : Z) : Z := x mod 2 ^ 32.
Definition add32 (x y : Z) : Z := w32 (x + y).
Definition not32 (x : Z) : Z := Z.lxor x 4294967295.
Definition rotr (n x : Z) : Z :=
  w32 (Z.lor (Z.shiftr x n) (Z.shiftl x (32 - n))).
Definition shr (n x : Z) : Z := Z.shiftr x n.

Definition Ch (x y z : Z) : Z := Z.lxor (Z.land x y) (Z.land (not32 x) z).
Definition Maj (x y z : Z) : Z :=
  Z.lxor (Z.lxor (Z.land x y) (Z.land x z)) (Z.land y z).
Definition Sigma0 (x : Z) : Z := Z.lxor (Z.lxor (rotr 2 x) (rotr 13 x)) (rotr 22 x).
Definition Sigma1 (x : Z) : Z := Z.lxor (Z.lxor (rotr 6 x) (rotr 11 x)) (rotr 25 x).
Definition sigma0 (x : Z) : Z := Z.lxor (Z.lxor (rotr 7 x) (rotr 18 x)) (shr 3 x).
Definition sigma1 (x : Z) : Z := Z.lxor (Z.lxor (rotr 17 x) (rotr 19 x)) (shr 10 x).

(** Round constants and initial hash value. *)
Definition K : list Z :=
  [
    0x428A2F98; 0x71374491; 0xB5C0FBCF; 0xE9B5DBA5; 0x3956C25B; 0x59F111F1;
    0x923F82A4; 0xAB1C5ED5; 0xD807AA98; 0x12835B01; 0x243185BE; 0x550C7DC3;
    0x72BE5D74; 0x80DEB1FE; 0x9BDC06A7; 0xC19BF174; 0xE49B69C1; 0xEFBE4786;
    0x0FC19DC6; 0x240CA1CC; 0x2DE92C6F; 0x4A7484AA; 0x5CB0A9DC; 0x76F988DA;
    0x983E5152; 0xA831C66D; 0xB00327C8; 0xBF597FC7; 0xC6E00BF3; 0xD5A79147;
    0x06CA6351; 0x14292967; 0x27B70A85; 0x2E1B2138; 0x4D2C6DFC; 0x53380D13;
    0x650A7354; 0x766A0ABB; 0x81C2C92E; 0x92722C85; 0xA2BFE8A1; 0xA81A664B;
    0xC24B8B70; 0xC76C51A3; 0xD192E819; 0xD6990624; 0xF40E3585; 0x106AA070;
    0x19A4C116; 0x1E376C08; 0x2748774C; 0x34B0BCB5; 0x391C0CB3; 0x4ED8AA4A;
    0x5B9CCA4F; 0x682E6FF3; 0x748F82EE; 0x78A5636F; 0x84C87814; 0x8CC70208;
    0x90BEFFFA; 0xA4506CEB; 0xBEF9A3F7; 0xC67178F2 ].

Definition H0 : list Z :=
  [
    0x6A09E667; 0xBB67AE85; 0x3C6EF372; 0xA54FF53A;
    0x510E527F; 0x9B05688C; 0x1F83D9AB; 0x5BE0CD19 ].

(** What the constants are: the first 32 bits of the fractional parts of
    the cube roots (round constants) and of the square roots (initial hash
    value) of the first primes. *)
Definition is_prime (n : Z) : bool :=
  forallb (fun k => negb (Z.eqb (n mod k) 0))
    (map Z.of_nat (seq 2 (Z.to_nat n - 2))).

Definition primes (bound : nat) : list Z :=
  List.filter is_prime (map Z.of_nat (seq 2 bound)).

(** The largest [r] below [2 ^ bits] with [r ^ e <= n], found bit by bit. *)
Fixpoint iroot (e : Z) (bits : nat) (n r : Z) : Z :=
  match bits with
  | O => r
  | S b =>
      let r' := r + 2 ^ Z.of_nat b in
      iroot e b n (if Z.leb (r' ^ e) n then r' else r)
  end.

Definition frac_root (e : Z) (p : Z) : Z :=
  w32 (iroot e 36 (p * 2 ^ (32 * e)) 0).

(** Padding: the byte 0x80, zero bytes up to 56 modulo 64, then the bit
    length of the message as a 64-bit big-endian number. *)
Definition be_bytes (n : nat) (x : Z) : list Z :=
  map (fun i => Z.shiftr x (8 * Z.of_nat i) mod 256) (rev (seq 0 n)).

Definition pad (msg : list Z) : list Z :=
  let len := Z.of_nat (List.length msg) in
  let zeros := Z.to_nat ((55 - len) mod 64) in
  msg ++ 128 :: repeat 0 zeros ++ be_bytes 8 (8 * len).

Fixpoint be_words (bs : list Z) : list Z :=
  match bs with
  | b0 :: b1 :: b2 :: b3 :: rest =>
      (((b0 * 256 + b1) * 256 + b2) * 256 + b3) :: be_words rest
  | _ => []
  end.

Fixpoint chunks (n : nat) (k : nat) (ws : list Z) : list (list Z) :=
  match n with
  | O => []
  | S n' => firstn k ws :: chunks n' k (skipn k ws)
  end.

(** The message schedule, most recent word first. *)
Fixpoint extend (n : nat) (rw : list Z) : list Z :=
  match n with
  | O => rw
  | S n' =>
      let w := add32 (add32 (sigma1 (nth 1 rw 0)) (nth 6 rw 0))
                     (add32 (sigma0 (nth 14 rw 0)) (nth 15 rw 0)) in
      extend n' (w :: rw)
  end.

Definition schedule (block : list Z) : list Z := rev (extend 48 (rev block)).

Record regs := Regs { ra : Z; rb : Z; rc : Z; rd : Z; re : Z; rf : Z; rg : Z; rh : Z }.

Definition round (s : regs) (kw : Z * Z) : regs :=
  let t1 := add32 (add32 (add32 (rh s) (Sigma1 (re s)))
                         (add32 (Ch (re s) (rf s) (rg s)) (fst kw))) (snd kw) in
  let t2 := add32 (Sigma0 (ra s)) (Maj (ra s) (rb s) (rc s)) in
  Regs (add32 t1 t2) (ra s) (rb s) (rc s) (add32 (rd s) t1) (re s) (rf s) (rg s).

Definition regs_of (h : list Z) : regs :=
  Regs (nth 0 h 0) (nth 1 h 0) (nth 2 h 0) (nth 3 h 0)
       (nth 4 h 0) (nth 5 h 0) (nth 6 h 0) (nth 7 h 0).

Definition list_of (s : regs) : list Z :=
  [ra s; rb s; rc s; rd s; re s; rf s; rg s; rh s].

Definition compress (h : list Z) (block : list Z) : list Z :=
  let s := fold_left round (combine K (schedule block)) (regs_of h) in
  map (fun p => add32 (fst p) (snd p)) (combine h (list_of s)).

Definition digest (msg : list Z) : list Z :=
  let ws := be_words (pad msg) in
  let blocks := chunks (List.length ws / 16) 16 ws in
  flat_map (be_bytes 4) (fold_left compress blocks H0).

End SHA256.

(** ** Bytes, hexadecimal text and [str.replace] *)

Definition hex_digit (n : N) : ascii :=
  match n with
  | 0 => "0" | 1 => "1" | 2 => "2" | 3 => "3" | 4 => "4" | 5 => "5"
  | 6 => "6" | 7 => "7" | 8 => "8" | 9 => "9" | 10 => "a" | 11 => "b"
  | 12 => "c" | 13 => "d" | 14 => "e" | _ => "f"
  end%N%char.

(** [bytes.hex()]: two lowercase digits per byte. *)
Fixpoint hex (bs : list N) : string :=
  match bs with
  | [] => ""
  | b :: rest =>
      String (hex_digit (b / 16)) (String (hex_digit (b mod 16)) (hex rest))
  end.

(** [str.encode()]: the bytes of the text. *)
Definition encode (s : string) : list Z :=
  map (fun c => Z.of_N (N_of_ascii c)) (list_ascii_of_string s).

Definition sha256_hexdigest (msg : list Z) : string :=
  hex (map Z.to_N (SHA256.digest msg)).

(** [hash_password] (main.py, lines 34-35). *)
Definition hash_password (password : string) : string :=
  sha256_hexdigest (encode password).

(** [str.replace(old, new)] for a non-empty [old]: occurrences are taken
    from the left and do not overlap. [skip] counts the characters of the
    occurrence just matched that are still to be passed over. *)
Fixpoint replace_from (old new : string) (skip : nat) (s : string) : string :=
  match s with
  | EmptyString => EmptyString
  | String c rest =>
      match skip with
      | S k => replace_from old new k rest
      | O =>
          if String.prefix old s
          then new ++ replace_from old new (Nat.pred (String.length old)) rest
          else String c (replace_from old new O rest)
      end
  end.

(** With an empty [old], Python puts [new] before every character and at
    the end. *)
Fixpoint intersperse (new s : string) : string :=
  match s with
  | EmptyString => new
  | String c rest => new ++ String c (intersperse new rest)
  end.

Definition str_replace (old new s : string) : string :=
  match old with
  | EmptyString => intersperse new s
  | String _ _ => replace_from old new O s
  end.

(** [old in s]. *)
Fixpoint contains (old s : string) : bool :=
  String.prefix old s ||
  match s with
  | EmptyString => false
  | String _ rest => contains old rest
  end.

(** ** Values, dictionaries and exceptions *)

Inductive value : Type :=
| VNone
| VBool (b : bool)
| VStr (s : string)
| VDate (t : Z)
| VObjectId (n : N).

#[global] Instance value_eq_dec : EqDecision value.
Proof. solve_decision. Defined.

Abbreviation dict := (gmap string value).

(** [d.get(k)] and [d.get(k, default)]. *)
Definition dict_get (d : dict) (k : string) : value := default VNone (d !! k).
Definition dict_get_default (d : dict) (k : string) (v : value) : value :=
  default v (d !! k).

(** Truth value of an object in a condition. *)
Definition truthy (v : value) : bool :=
  match v with
  | VNone => false
  | VBool b => b
  | VStr s => negb (String.eqb s "")
  | VDate _ => true
  | VObjectId _ => true
  end.

Inductive exn : Type :=
| HTTPException (status_code : Z) (detail : string)
| TypeError.

Inductive result (A : Type) : Type :=
| Ok (a : A)
| Raise (e : exn).
Arguments Ok {A} a.
Arguments Raise {A} e.

(** [a < b] when [b] is a [datetime]: only another [datetime] compares. *)
Definition lt_datetime (a : value) (b : Z) : result bool :=
  match a with
  | VDate t => Ok (Z.ltb t b)
  | _ => Raise TypeError
  end.

(** [timedelta(hours=8)], in microseconds. *)
Definition timedelta_hours (h : Z) : Z := h * 3600 * 1000000.

(** ** The store *)

(** Modelled from the spec: the store handle [db] of [database.py], which is
    not part of the sources at hand. A configured store ([Some]) holds the
    two collections [adminuser] and [session]; every stored document carries
    the [_id] it was given on insertion next to its fields; [find_one]
    returns the first document, in insertion order, whose fields equal the
    values of the filter; [insert_one] appends. Store operations do not
    fail, and a configured handle counts as true in a condition. [None] is
    the absent store ([db is None]). *)
Record document : Type := Document { doc_id : N; fields : dict }.

Record Database : Type := { adminuser : list document; session : list document }.

Definition doc_matches (flt : list (string * value)) (d : document) : bool :=
  forallb (fun kv => bool_decide (fields d !! fst kv = Some (snd kv))) flt.

Definition find_one (flt : list (string * value)) (coll : list document)
  : option document :=
  List.find (doc_matches flt) coll.

Definition insert_one (oid : N) (d : dict) (coll : list document)
  : list document :=
  coll ++ [Document oid d].

(** The dictionary [find_one] hands to Python. *)
Definition to_dict (d : document) : dict :=
  <["_id" := VObjectId (doc_id d)]> (fields d).

(** [str(ObjectId)]: 24 hexadecimal digits. *)
Definition str_ObjectId (n : N) : string :=
  hex (map (fun i => (N.shiftr n (8 * N.of_nat i) mod 256)%N) (rev (seq 0 12))).

(** What one call reads from outside: the bytes [os.urandom] delivers, the
    successive readings of [datetime.now(timezone.utc)], and the [ObjectId]
    the driver generates for an inserted document. *)
Record Env : Type := {
  urandom : nat -> byte;
  utcnow : nat -> Z;
  new_oid : N
}.

(** [secrets.token_hex(nbytes)]. *)
Definition token_bytes (env : Env) (nbytes : nat) : list byte :=
  map (urandom env) (seq 0 nbytes).
Definition token_hex (env : Env) (nbytes : nat) : string :=
  hex (map Byte.to_N (token_bytes env nbytes)).

(** ** The handlers of [main.py]

    The functions are embedded as they are written. What FastAPI does
    around them, parsing the request body into a [LoginRequest] and
    serialising the returned dictionary, is not part of the embedding. An
    exception other than [HTTPException] that leaves a handler is answered
    with status 500. *)

Record LoginRequest : Type := { username : string; password : string }.

(** [create_default_admin] (lines 38-56). With no store, [existing] is
    [None] and [not existing and db] is false. The [except] clause has
    nothing to catch here, since the operations of the modelled store do not
    raise. *)
Definition create_default_admin (db : option Database) (env : Env)
  : option Database :=
  match db with
  | None => None
  | Some d =>
      match find_one [("username", VStr "admin")] (adminuser d) with
      | Some _ => Some d
      | None =>
          Some {| adminuser :=
                    insert_one (new_oid env)
                      (<["name" := VStr "Administrator"]>
                       (<["email" := VStr "admin@example.com"]>
                       (<["username" := VStr "admin"]>
                       (<["password_hash" := VStr (hash_password "admin123")]>
                       (<["role" := VStr "admin"]>
                       (<["is_active" := VBool true]>
                       (<["created_at" := VDate (utcnow env 0)]>
                       (<["updated_at" := VDate (utcnow env 1)]> ∅))))))))
                      (adminuser d);
                  session := session d |}
      end
  end.

(** Bootstrap invoked once per element of [envs]. *)
Definition bootstrap_many (db : option Database) (envs : list Env)
  : option Database :=
  fold_left create_default_admin envs db.

(** [login] (lines 69-95): the returned dictionary, or the exception
    raised, together with the store after the call. *)
Definition login (db : option Database) (env : Env) (payload : LoginRequest)
  : result dict * option Database :=
  match db with
  | None =>
      if String.eqb (username payload) "admin"
         && String.eqb (password payload) "admin123"
      then (Ok (<["token" := VStr "demo-token"]>
               (<["name" := VStr "Administrator"]>
               (<["role" := VStr "admin"]> ∅))), None)
      else (Raise (HTTPException 500 "Database not configured"), None)
  | Some d =>
      match find_one [("username", VStr (username payload));
                      ("is_active", VBool true)] (adminuser d) with
      | None => (Raise (HTTPException 401 "User not found or inactive"), Some d)
      | Some user =>
          if bool_decide (dict_get (to_dict user) "password_hash"
                          ≠ VStr (hash_password (password payload)))
          then (Raise (HTTPException 401 "Invalid credentials"), Some d)
          else
            let token := token_hex env 24 in
            let expires := utcnow env 0 + timedelta_hours 8 in
            let d' :=
              {| adminuser := adminuser d;
                 session :=
                   insert_one (new_oid env)
                     (<["user_id" := VStr (str_ObjectId (doc_id user))]>
                      (<["token" := VStr token]>
                      (<["role" := dict_get_default (to_dict user) "role" (VStr "admin")]>
                      (<["expires_at" := VDate expires]>
                      (<["revoked" := VBool false]>
                      (<["created_at" := VDate (utcnow env 1)]>
                      (<["updated_at" := VDate (utcnow env 2)]> ∅)))))))
                     (session d) |} in
            (Ok (<["token" := VStr token]>
                (<["name" := dict_get_default (to_dict user) "name" (VStr "Admin")]>
                (<["role" := dict_get_default (to_dict user) "role" (VStr "admin")]> ∅))),
             Some d')
      end
  end.

(** [require_auth] (lines 98-113). *)
Definition require_auth (db : option Database) (env : Env)
  (authorization : option string) : result dict :=
  match authorization with
  | None => Raise (HTTPException 401 "Missing Authorization header")
  | Some a =>
      let token := str_replace "Bearer " "" a in
      match db with
      | None =>
          if String.eqb token "demo-token"
          then Ok (<["role" := VStr "admin"]>
                  (<["name" := VStr "Administrator"]> ∅))
          else Raise (HTTPException 401 "Invalid token")
      | Some d =>
          match find_one [("token", VStr token); ("revoked", VBool false)]
                  (session d) with
          | None => Raise (HTTPException 401 "Invalid token")
          | Some s =>
              let sess := to_dict s in
              if truthy (dict_get sess "expires_at") then
                match lt_datetime (dict_get sess "expires_at") (utcnow env 0) with
                | Raise e => Raise e
                | Ok true => Raise (HTTPException 401 "Token expired")
                | Ok false => Ok sess
                end
              else Ok sess
          end
      end
  end.

(** [dashboard] (lines 116-129), given what [require_auth] returned. *)
Record Dashboard : Type := {
  user : dict;
  stats : list (string * Z);
  announcements : list (string * string)
}.

Definition dashboard (auth : dict) : Dashboard :=
  {| user := <["name" := dict_get_default auth "name" (VStr "Administrator")]> ∅;
     stats := [("students", 1240); ("teachers", 68); ("classes", 32);
               ("alumni", 5400)];
     announcements := [("Penerimaan Santri Baru", "2025-06-01");
                       ("Ujian Akhir Semester", "2025-12-15")] |}.

(** [GET /api/dashboard]: [dashboard] behind [Depends(require_auth)]. *)
Definition get_dashboard (db : option Database) (env : Env)
  (authorization : option string) : result Dashboard :=
  match require_auth db env authorization with
  | Ok auth => Ok (dashboard auth)
  | Raise e => Raise e
  end.

(** [startup_event] (lines 59-61): Bootstrap at start-up. *)
Definition startup_event (db : option Database) (env : Env) : option Database :=
  create_default_admin db env.

(** [read_root] (lines 64-66). *)
Definition read_root : gmap string string :=
  <["message" := "Madrasah Backend Running"]> ∅.

(** ** The diagnostic route *)

(** A byte that continues a character of UTF-8 text. *)
Definition is_continuation (c : ascii) : bool :=
  let n := N_of_ascii c in N.leb 128 n && N.ltb n 192.

(** [s[:n]]: the first [n] characters of the text. *)
Fixpoint take_chars (n : nat) (s : string) : string :=
  match s with
  | EmptyString => EmptyString
  | String c rest =>
      if is_continuation c then String c (take_chars n rest)
      else
        match n with
        | O => EmptyString
        | S k => String c (take_chars k rest)
        end
  end.


(** What [test_database] asks of a store handle: its [name] attribute, when
    it has one, and the outcome of [list_collection_names()], either the
    text of the exception raised ([inl]) or the names ([inr]). *)
Record Handle : Type := {
  handle_name : option string;
  list_collection_names : string + list string
}.

Record Diagnostic : Type := {
  backend : string;
  database : string;
  database_url : value;
  database_name : value;
  connection_status : string;
  collections : list string
}.

Definition set_database (v : string) (r : Diagnostic) : Diagnostic :=
  {| backend := backend r; database := v; database_url := database_url r;
     database_name := database_name r;
     connection_status := connection_status r; collections := collections r |}.
Definition set_database_url (v : value) (r : Diagnostic) : Diagnostic :=
  {| backend := backend r; database := database r; database_url := v;
     database_name := database_name r;
     connection_status := connection_status r; collections := collections r |}.
Definition set_database_name (v : value) (r : Diagnostic) : Diagnostic :=
  {| backend := backend r; database := database r;
     database_url := database_url r; database_name := v;
     connection_status := connection_status r; collections := collections r |}.
Definition set_connection_status (v : string) (r : Diagnostic) : Diagnostic :=
  {| backend := backend r; database := database r;
     database_url := database_url r; database_name := database_name r;
     connection_status := v; collections := collections r |}.
Definition set_collections (v : list string) (r : Diagnostic) : Diagnostic :=
  {| backend := backend r; database := database r;
     database_url := database_url r; database_name := database_name r;
     connection_status := connection_status r; collections := v |}.

(** [os.getenv(name)] in a condition: set, and not to the empty text. *)
Definition getenv_truthy (environ : gmap string string) (name : string) : bool :=
  match environ !! name with
  | Some v => negb (String.eqb v "")
  | None => false
  end.

(** [test_database] (lines 132-164), the assignments in the order of the
    source. Nothing in the outer [try] raises outside the inner one, so its
    [except] clause has nothing to catch. *)
Definition test_database (db : option Handle) (environ : gmap string string)
  : Diagnostic :=
  let response :=
    {| backend := "✅ Running";
       database := "❌ Not Available";
       database_url := VNone;
       database_name := VNone;
       connection_status := "Not Connected";
       collections := [] |} in
  let response :=
    match db with
    | Some h =>
        let response := set_database "✅ Available" response in
        let response := set_database_url (VStr "✅ Configured") response in
        let response :=
          set_database_name
            (VStr (match handle_name h with
                   | Some n => n
                   | None => "✅ Connected"
                   end)) response in
        let response := set_connection_status "Connected" response in
        match list_collection_names h with
        | inr names =>
            let response := set_collections (firstn 10 names) response in
            set_database "✅ Connected & Working" response
        | inl e =>
            set_database ("⚠️  Connected but Error: " ++ take_chars 50 e)
              response
        end
    | None => set_database "⚠️  Available but not initialized" response
    end in
  let response :=
    set_database_url
      (VStr (if getenv_truthy environ "DATABASE_URL"
             then "✅ Set" else "❌ Not Set")) response in
  let response :=
    set_database_name
      (VStr (if getenv_truthy environ "DATABASE_NAME"
             then "✅ Set" else "❌ Not Set")) response in
  response.

(** ** Vocabulary of the statements *)

Definition is_hex_char (c : ascii) : bool :=
  existsb (Ascii.eqb c) (list_ascii_of_string "0123456789abcdef").

Fixpoint all_hex (s : string) : bool :=
  match s with
  | EmptyString => true
  | String c rest => is_hex_char c && all_hex rest
  end.

(** The documents of a collection whose [username] is [name]. *)
Definition with_username (name : string) (coll : list document) : list document :=
  List.filter (fun u => bool_decide (fields u !! "username" = Some (VStr name))) coll.

(** An exception that FastAPI answers with status 401. *)
Definition Unauthorized {A} (r : result A) : Prop :=
  exists detail, r = Raise (HTTPException 401 detail).

(** The value of a hexadecimal digit, and the bytes a hexadecimal text
    stands for: the inverse of [hex]. *)
Definition unhex_digit (c : ascii) : N :=
  let n := N_of_ascii c in
  if N.leb 97 n then (n - 87)%N else (n - 48)%N.

Fixpoint unhex (s : string) : list N :=
  match s with
  | String hi (String lo rest) =>
      (16 * unhex_digit hi + unhex_digit lo)%N :: unhex rest
  | _ => []
  end.

(** [a] is [b] with zero or more documents appended. *)
Definition extends (a b : list document) : Prop := exists more, a = (b ++ more)%list.


(** ** Sample data for the examples below *)

Module Sample.

Definition alice : document :=
  Document 1
    (<["name" := VStr "Alice"]>
     (<["username" := VStr "alice"]>
     (<["password_hash" := VStr (hash_password "s3cret")]>
     (<["role" := VStr "editor"]>
     (<["is_active" := VBool true]> ∅))))).

Definition store : Database := {| adminuser := [alice]; session := [] |}.

Definition credentials : LoginRequest :=
  {| username := "alice"; password := "s3cret" |}.

Definition wrong_credentials : LoginRequest :=
  {| username := "alice"; password := "guess" |}.

(** A call at time 1000 whose random bytes are all [0xab]. *)
Definition env : Env :=
  {| urandom := fun _ => xab; utcnow := fun k => 1000 + Z.of_nat k; new_oid := 2 |}.

Definition token : string := "abababababababababababababababababababababababab".

(** What [login] answers to [credentials] under [env]. *)
Definition response : dict :=
  <["token" := VStr token]>
  (<["name" := VStr "Alice"]> (<["role" := VStr "editor"]> ∅)).

(** The store [login] leaves after answering [credentials] under [env]. *)
Definition store_after_login : Database :=
  {| adminuser := [alice];
     session :=
       [Document 2
          (<["user_id" := VStr "000000000000000000000001"]>
           (<["token" := VStr token]>
           (<["role" := VStr "editor"]>
           (<["expires_at" := VDate (1000 + timedelta_hours 8)]>
           (<["revoked" := VBool false]>
           (<["created_at" := VDate 1001]>
           (<["updated_at" := VDate 1002]> ∅)))))))] |}.

(** A call one microsecond after the token issued under [env] expired. *)
Definition late : Env :=
  {| urandom := fun _ => x00;
     utcnow := fun _ => 1000 + timedelta_hours 8 + 1;
     new_oid := 3 |}.

(** A session document with the given token, expiry and revocation mark. *)
Definition session_doc (oid : N) (tok : string) (expires : option Z)
  (revoked : bool) : document :=
  Document oid
    (<["token" := VStr tok]>
     (<["role" := VStr "admin"]>
     (<["revoked" := VBool revoked]>
      match expires with
      | Some t => <["expires_at" := VDate t]> ∅
      | None => ∅
      end))).

Definition sessions (l : list document) : Database :=
  {| adminuser := []; session := l |}.

Definition empty_store : Database := {| adminuser := []; session := [] |}.

End Sample.

Module Fixture.

(** A disabled administrator account with the default password. *)
Definition disabled_admin : document :=
  Document 9
    (<["name" := VStr "Administrator"]>
     (<["username" := VStr "admin"]>
     (<["password_hash" := VStr (hash_password "admin123")]>
     (<["role" := VStr "admin"]>
     (<["is_active" := VBool false]> ∅))))).

Definition disabled_store : Database :=
  {| adminuser := [disabled_admin]; session := [] |}.

(** An account whose document has no [password_hash]. *)
Definition bob : document :=
  Document 4
    (<["name" := VStr "Bob"]>
     (<["username" := VStr "bob"]>
     (<["is_active" := VBool true]> ∅))).

Definition bob_store : Database := {| adminuser := [bob]; session := [] |}.

Definition bob_credentials : LoginRequest :=
  {| username := "bob"; password := "" |}.

Definition admin_credentials : LoginRequest :=
  {| username := "admin"; password := "admin123" |}.

(** A call whose random bytes differ from those of [Sample.env]. *)
Definition other_env : Env :=
  {| urandom := fun _ => xcd; utcnow := fun k => 2000 + Z.of_nat k; new_oid := 6 |}.

(** A store handle that names twelve collections. *)
Definition twelve : Handle :=
  {| handle_name := Some "madrasah";
     list_collection_names :=
       inr ["a"; "b"; "c"; "d"; "e"; "f"; "g"; "h"; "i"; "j"; "k"; "l"] |}.

End Fixture.

(** * Properties *)

(** Closed equations are settled by evaluation; the proof term keeps the
    two sides as they are written. *)
Ltac by_evaluation :=
  lazymatch goal with
  | |- _ = ?rhs => vm_cast_no_check (@eq_refl _ rhs)
  end.

Example sha256_constants :
  SHA256.K = map (SHA256.frac_root 3) (SHA256.primes 310) /\
  SHA256.H0 = map (SHA256.frac_root 2) (SHA256.primes 18).
Proof. split; by_evaluation. Qed.

Example sha256_empty :
  sha256_hexdigest [] =
  "e3b0c44298fc1c149afbf4c8996fb92427ae41e4649b934ca495991b7852b855".
Proof. by_evaluation. Qed.

Example sha256_abc :
  hash_password "abc" =
  "ba7816bf8f01cfea414140de5dae2223b00361a396177a9cb410ff61f20015ad".
Proof. by_evaluation. Qed.

Example sha256_two_blocks :
  hash_password "abcdbcdecdefdefgefghfghighijhijkijkljklmklmnlmnomnopnopq" =
  "248d6a61d20638b8e5c026930c3e6039a33ce45964ff2167f6ecedd419db06c1".
Proof. by_evaluation. Qed.

Example hash_password_admin123 :
  hash_password "admin123" =
  "240be518fabd2724ddb6f04eeb1da5967448d7e831c08c8fa822809f74c720a9".
Proof. by_evaluation. Qed.

(** ** Text: [str.replace] and hexadecimal tokens *)

Section Replace.

Lemma contains_cons old c s :
  contains old (String c s) = false ->
  String.prefix old (String c s) = false /\ contains old s = false.
Proof.
  cbn [contains]. intros H. apply orb_false_iff in H. exact H.
Qed.

(** Text without an occurrence of [old] is left as it is. *)
Lemma replace_from_absent old new s :
  contains old s = false -> replace_from old new O s = s.
Proof.
  induction s as [|c s IH]; [reflexivity|].
  intros H. apply contains_cons in H as [Hp Hc].
  cbn [replace_from]. rewrite Hp, (IH Hc). reflexivity.
Qed.

Lemma str_replace_absent old new s :
  old <> EmptyString -> contains old s = false -> str_replace old new s = s.
Proof.
  destruct old as [|a old]; [congruence|].
  intros _ H. now apply replace_from_absent.
Qed.

Lemma replace_Bearer_prefix s :
  str_replace "Bearer " "" ("Bearer " ++ s) = str_replace "Bearer " "" s.
Proof.
  destruct s; lazy; reflexivity.
Qed.

Lemma replace_Bearer_absent s :
  contains "Bearer " s = false -> str_replace "Bearer " "" s = s.
Proof. apply str_replace_absent. discriminate. Qed.

End Replace.

Section Hex.

Lemma hex_digit_is_hex n : is_hex_char (hex_digit n) = true.
Proof.
  unfold hex_digit.
  repeat match goal with
         | |- context [match ?x with _ => _ end] => destruct x
         end; reflexivity.
Qed.

Lemma all_hex_hex bs : all_hex (hex bs) = true.
Proof.
  induction bs as [|b bs IH]; [reflexivity|].
  cbn [hex all_hex]. now rewrite !hex_digit_is_hex, IH.
Qed.

Lemma length_hex bs : String.length (hex bs) = (2 * List.length bs)%nat.
Proof.
  induction bs as [|b bs IH]; [reflexivity|].
  cbn [hex String.length List.length]. rewrite IH. lia.
Qed.

Lemma all_hex_no_Bearer s : all_hex s = true -> contains "Bearer " s = false.
Proof.
  induction s as [|c s IH]; [reflexivity|].
  cbn [all_hex]. intros H. apply andb_true_iff in H as [Hc Hs].
  cbn [contains]. rewrite (IH Hs), orb_false_r.
  cbn [String.prefix]. destruct (ascii_dec "B" c) as [<-|_]; [|reflexivity].
  discriminate Hc.
Qed.

Lemma all_hex_token_hex env n : all_hex (token_hex env n) = true.
Proof. apply all_hex_hex. Qed.

Lemma length_token_hex env n : String.length (token_hex env n) = (2 * n)%nat.
Proof.
  unfold token_hex, token_bytes.
  now rewrite length_hex, !length_map, length_seq.
Qed.

(** A header made of an issued token, with or without the scheme, is read
    back as that token. *)
Lemma replace_Bearer_token env n :
  str_replace "Bearer " "" (token_hex env n) = token_hex env n /\
  str_replace "Bearer " "" ("Bearer " ++ token_hex env n) = token_hex env n.
Proof.
  assert (H : str_replace "Bearer " "" (token_hex env n) = token_hex env n)
    by apply replace_Bearer_absent, all_hex_no_Bearer, all_hex_token_hex.
  split; [exact H|]. now rewrite replace_Bearer_prefix.
Qed.

End Hex.

(** ** The store *)

Section Store.

Implicit Types (d : document) (coll : list document) (flt : list (string * value)).

Lemma doc_matches_2 k1 v1 k2 v2 d :
  doc_matches [(k1, v1); (k2, v2)] d = true <->
  fields d !! k1 = Some v1 /\ fields d !! k2 = Some v2.
Proof.
  unfold doc_matches. cbn [forallb fst snd].
  rewrite andb_true_r, andb_true_iff, !bool_decide_eq_true. reflexivity.
Qed.

Lemma doc_matches_1 k v d :
  doc_matches [(k, v)] d = true <-> fields d !! k = Some v.
Proof.
  unfold doc_matches. cbn [forallb fst snd].
  rewrite andb_true_r, bool_decide_eq_true. reflexivity.
Qed.

Lemma find_one_None flt coll :
  find_one flt coll = None <-> forall d, d ∈ coll -> doc_matches flt d = false.
Proof.
  unfold find_one. split.
  - intros H d Hd. apply list_elem_of_In in Hd.
    exact (find_none _ _ H d Hd).
  - induction coll as [|x coll IH]; [reflexivity|].
    intros H. cbn [find]. rewrite (H x) by apply list_elem_of_here.
    apply IH. intros d Hd. apply H. now apply list_elem_of_further.
Qed.

(** The only matching document of a collection is the one found. *)
Lemma find_one_unique flt coll d :
  d ∈ coll -> doc_matches flt d = true ->
  (forall d', d' ∈ coll -> doc_matches flt d' = true -> d' = d) ->
  find_one flt coll = Some d.
Proof.
  unfold find_one. intros Hd Hm Huniq.
  destruct (find (doc_matches flt) coll) as [d'|] eqn:E.
  - apply find_some in E as [Hin Hm'].
    f_equal. apply Huniq; [now apply list_elem_of_In|exact Hm'].
  - apply list_elem_of_In in Hd.
    pose proof (find_none _ _ E d Hd) as Hf. congruence.
Qed.

Lemma find_one_Some_inv flt coll d :
  find_one flt coll = Some d -> d ∈ coll /\ doc_matches flt d = true.
Proof.
  unfold find_one. intros H. apply find_some in H as [Hin Hm].
  split; [now apply list_elem_of_In|exact Hm].
Qed.

(** A document inserted into a collection that had no match is the match. *)
Lemma find_one_insert_fresh flt coll oid (fs : dict) :
  find_one flt coll = None ->
  doc_matches flt (Document oid fs) = true ->
  find_one flt (insert_one oid fs coll) = Some (Document oid fs).
Proof.
  unfold find_one, insert_one. intros Hnone Hm.
  induction coll as [|x coll IH]; cbn [find app] in *.
  - now rewrite Hm.
  - destruct (doc_matches flt x); [discriminate|]. now apply IH.
Qed.

Lemma find_one_insert_old flt coll oid (fs : dict) d :
  find_one flt coll = Some d ->
  find_one flt (insert_one oid fs coll) = Some d.
Proof.
  unfold find_one, insert_one. intros H.
  induction coll as [|x coll IH]; cbn [find app] in *; [discriminate|].
  destruct (doc_matches flt x); [exact H|]. now apply IH.
Qed.

Lemma to_dict_lookup d k : k <> "_id" -> to_dict d !! k = fields d !! k.
Proof. intros H. unfold to_dict. now rewrite lookup_insert_ne. Qed.

End Store.

(** ** [login] and [require_auth] on a configured store *)

Section Auth.

Implicit Types (d : Database) (u s : document) (env : Env)
  (payload : LoginRequest).

Ltac lookup_fields :=
  repeat (rewrite lookup_insert_ne by discriminate);
  first [rewrite lookup_insert_eq | rewrite lookup_empty]; reflexivity.

(** The outcome of [login] once the user lookup and the digest comparison
    are settled. *)
Lemma login_found d env payload u :
  find_one [("username", VStr (username payload)); ("is_active", VBool true)]
    (adminuser d) = Some u ->
  fields u !! "password_hash" = Some (VStr (hash_password (password payload))) ->
  exists resp s,
    login (Some d) env payload
    = (Ok resp, Some {| adminuser := adminuser d; session := session d ++ [s] |})
    /\ resp !! "token" = Some (VStr (token_hex env 24))
    /\ resp !! "name" = Some (default (VStr "Admin") (fields u !! "name"))
    /\ resp !! "role" = Some (default (VStr "admin") (fields u !! "role"))
    /\ doc_id s = new_oid env
    /\ fields s !! "token" = Some (VStr (token_hex env 24))
    /\ fields s !! "role" = Some (default (VStr "admin") (fields u !! "role"))
    /\ fields s !! "expires_at" = Some (VDate (utcnow env 0 + timedelta_hours 8))
    /\ fields s !! "revoked" = Some (VBool false)
    /\ fields s !! "name" = None.
Proof.
  intros Hfind Hpw. unfold login. rewrite Hfind.
  unfold dict_get, dict_get_default.
  rewrite !to_dict_lookup by discriminate. rewrite Hpw. cbn [from_option id].
  rewrite bool_decide_eq_false_2 by (intros H; now apply H).
  unfold insert_one. eexists _, (Document _ _). split; [reflexivity|].
  cbn [doc_id fields]. repeat split; lookup_fields.
Qed.

Lemma login_wrong_digest d env payload u :
  find_one [("username", VStr (username payload)); ("is_active", VBool true)]
    (adminuser d) = Some u ->
  fields u !! "password_hash" <> Some (VStr (hash_password (password payload))) ->
  login (Some d) env payload
  = (Raise (HTTPException 401 "Invalid credentials"), Some d).
Proof.
  intros Hfind Hpw. unfold login. rewrite Hfind.
  unfold dict_get. rewrite to_dict_lookup by discriminate.
  rewrite bool_decide_eq_true_2; [reflexivity|].
  destruct (fields u !! "password_hash") as [v|]; cbn [from_option id].
  - intros ->. now apply Hpw.
  - discriminate.
Qed.

(** A successful [login] went through both checks. *)
Lemma login_Ok_inv d env payload resp db' :
  login (Some d) env payload = (Ok resp, db') ->
  exists u,
    find_one [("username", VStr (username payload)); ("is_active", VBool true)]
      (adminuser d) = Some u
    /\ fields u !! "password_hash"
       = Some (VStr (hash_password (password payload))).
Proof.
  intros H.
  destruct (find_one [("username", VStr (username payload));
                      ("is_active", VBool true)] (adminuser d)) as [u|] eqn:Hfind.
  - exists u. split; [reflexivity|].
    destruct (decide (fields u !! "password_hash"
                      = Some (VStr (hash_password (password payload)))))
      as [Heq|Hne]; [exact Heq|].
    rewrite (login_wrong_digest d env payload u Hfind Hne) in H. discriminate.
  - unfold login in H. rewrite Hfind in H. discriminate.
Qed.

(** The outcome of [require_auth] once the session lookup is settled. *)
Lemma require_auth_found d env h s :
  find_one [("token", VStr (str_replace "Bearer " "" h)); ("revoked", VBool false)]
    (session d) = Some s ->
  require_auth (Some d) env (Some h)
  = match fields s !! "expires_at" with
    | Some (VDate t) =>
        if Z.ltb t (utcnow env 0)
        then Raise (HTTPException 401 "Token expired")
        else Ok (to_dict s)
    | Some v => if truthy v then Raise TypeError else Ok (to_dict s)
    | None => Ok (to_dict s)
    end.
Proof.
  intros Hfind. unfold require_auth. rewrite Hfind. cbv zeta.
  unfold dict_get. rewrite to_dict_lookup by discriminate.
  destruct (fields s !! "expires_at") as [[|b|str|t|n]|]; cbn [from_option id truthy lt_datetime];
    reflexivity.
Qed.

Lemma require_auth_not_found d env h :
  find_one [("token", VStr (str_replace "Bearer " "" h)); ("revoked", VBool false)]
    (session d) = None ->
  require_auth (Some d) env (Some h) = Raise (HTTPException 401 "Invalid token").
Proof. intros Hfind. unfold require_auth. now rewrite Hfind. Qed.

End Auth.

(** ** Login followed by authentication *)

Section LoginAuthenticate.

Implicit Types (d : Database) (u s : document) (env : Env)
  (payload : LoginRequest).

Lemma find_active_user d u name :
  u ∈ adminuser d ->
  fields u !! "username" = Some (VStr name) ->
  fields u !! "is_active" = Some (VBool true) ->
  (forall u', u' ∈ adminuser d ->
     fields u' !! "username" = Some (VStr name) ->
     fields u' !! "is_active" = Some (VBool true) -> u' = u) ->
  find_one [("username", VStr name); ("is_active", VBool true)] (adminuser d)
  = Some u.
Proof.
  intros Hin Hname Hact Huniq. apply find_one_unique; [exact Hin| |].
  - now apply doc_matches_2.
  - intros u' Hin' Hm. apply doc_matches_2 in Hm as [? ?]. now apply Huniq.
Qed.

Lemma find_session_None d tok :
  (forall s, s ∈ session d -> fields s !! "token" <> Some (VStr tok)) ->
  find_one [("token", VStr tok); ("revoked", VBool false)] (session d) = None.
Proof.
  intros Hfresh. apply find_one_None. intros s Hs.
  destruct (doc_matches _ s) eqn:E; [|reflexivity].
  apply doc_matches_2 in E as [Htok _]. now apply Hfresh in Htok.
Qed.

(** The session a login has just appended is the one a later call finds
    under its token, and it is accepted until it expires. *)
Lemma authenticate_issued d env env' h s :
  (forall s', s' ∈ session d ->
     fields s' !! "token" <> Some (VStr (token_hex env 24))) ->
  fields s !! "token" = Some (VStr (token_hex env 24)) ->
  fields s !! "revoked" = Some (VBool false) ->
  fields s !! "expires_at" = Some (VDate (utcnow env 0 + timedelta_hours 8)) ->
  utcnow env' 0 <= utcnow env 0 + timedelta_hours 8 ->
  h = token_hex env 24 \/ h = "Bearer " ++ token_hex env 24 ->
  require_auth
    (Some {| adminuser := adminuser d; session := session d ++ [s] |})
    env' (Some h)
  = Ok (to_dict s).
Proof.
  intros Hfresh Htok Hrev Hexp Htime Hh.
  assert (Hh' : str_replace "Bearer " "" h = token_hex env 24).
  { destruct (replace_Bearer_token env 24) as [H1 H2].
    destruct Hh as [-> | ->]; assumption. }
  rewrite (require_auth_found _ env' h s).
  - rewrite Hexp.
    destruct (Z.ltb_spec (utcnow env 0 + timedelta_hours 8) (utcnow env' 0));
      [lia|reflexivity].
  - rewrite Hh'. cbn [session]. destruct s as [oid fs].
    change (session d ++ [Document oid fs])%list
      with (insert_one oid fs (session d)).
    apply find_one_insert_fresh.
    + now apply find_session_None.
    + now apply doc_matches_2.
Qed.

(** C1, as stated, fails: the token issued to an active user with the
    right password is rejected by [require_auth] once more than eight
    hours have passed since the login. *)
Lemma login_then_late_authenticate_expired :
  Sample.alice ∈ adminuser Sample.store /\
  fields Sample.alice !! "username" = Some (VStr (username Sample.credentials)) /\
  fields Sample.alice !! "is_active" = Some (VBool true) /\
  fields Sample.alice !! "password_hash"
    = Some (VStr (hash_password (password Sample.credentials))) /\
  login (Some Sample.store) Sample.env Sample.credentials
    = (Ok Sample.response, Some Sample.store_after_login) /\
  Sample.response !! "token" = Some (VStr Sample.token) /\
  require_auth (Some Sample.store_after_login) Sample.late
    (Some ("Bearer " ++ Sample.token))
  = Raise (HTTPException 401 "Token expired").
Proof.
  split; [apply list_elem_of_here|].
  do 5 (split; [by_evaluation|]).
  by_evaluation.
Qed.

(** C1 (amended): for an active stored user whose username no other active
    user carries, and a password whose hash is the stored digest, [login]
    succeeds; when the issued token was not yet in the session store, every
    [require_auth] call made with it (bare or after "Bearer ") no later than
    eight hours after the issuance, against the store the login left,
    succeeds and reports the role that [login] returned. *)
Theorem login_then_authenticate d u env env' payload :
  u ∈ adminuser d ->
  fields u !! "username" = Some (VStr (username payload)) ->
  fields u !! "is_active" = Some (VBool true) ->
  fields u !! "password_hash" = Some (VStr (hash_password (password payload))) ->
  (forall u', u' ∈ adminuser d ->
     fields u' !! "username" = Some (VStr (username payload)) ->
     fields u' !! "is_active" = Some (VBool true) -> u' = u) ->
  (forall s, s ∈ session d ->
     fields s !! "token" <> Some (VStr (token_hex env 24))) ->
  utcnow env' 0 <= utcnow env 0 + timedelta_hours 8 ->
  exists resp d' tok role,
    login (Some d) env payload = (Ok resp, Some d') /\
    resp !! "token" = Some (VStr tok) /\
    resp !! "role" = Some role /\
    forall h, h = tok \/ h = "Bearer " ++ tok ->
      exists sess,
        require_auth (Some d') env' (Some h) = Ok sess /\
        sess !! "role" = Some role.
Proof.
  intros Hin Hname Hact Hpw Huniq Hfresh Htime.
  pose proof (find_active_user d u _ Hin Hname Hact Huniq) as Hfind.
  destruct (login_found d env payload u Hfind Hpw)
    as (resp & s & Hlogin & Htok & _ & Hrole & _ & Hstok & Hsrole
        & Hexp & Hrev & _).
  eexists resp, _, (token_hex env 24), _.
  split; [exact Hlogin|]. split; [exact Htok|]. split; [exact Hrole|].
  intros h Hh. exists (to_dict s). split.
  - now apply (authenticate_issued d env env' h s).
  - now rewrite to_dict_lookup by discriminate.
Qed.

Lemma login_then_authenticate_witness :
  exists resp d' tok role,
    login (Some Sample.store) Sample.env Sample.credentials = (Ok resp, Some d') /\
    resp !! "token" = Some (VStr tok) /\
    resp !! "role" = Some role /\
    forall h, h = tok \/ h = "Bearer " ++ tok ->
      exists sess,
        require_auth (Some d') Sample.env (Some h) = Ok sess /\
        sess !! "role" = Some role.
Proof.
  apply (login_then_authenticate Sample.store Sample.alice Sample.env
           Sample.env Sample.credentials).
  - apply list_elem_of_here.
  - by_evaluation.
  - by_evaluation.
  - by_evaluation.
  - intros u' Hu' _ _. apply list_elem_of_singleton in Hu'. exact Hu'.
  - intros s Hs. apply elem_of_nil in Hs. destruct Hs.
  - vm_compute. discriminate.
Defined.

(** C2: for an existing active user (the only active one of that username)
    and a password whose hash is not the stored digest, [login] raises
    [HTTPException 401]: no token is returned and the store, and so its
    session collection, is the one before the call. *)
Theorem login_wrong_password d u env payload :
  u ∈ adminuser d ->
  fields u !! "username" = Some (VStr (username payload)) ->
  fields u !! "is_active" = Some (VBool true) ->
  (forall u', u' ∈ adminuser d ->
     fields u' !! "username" = Some (VStr (username payload)) ->
     fields u' !! "is_active" = Some (VBool true) -> u' = u) ->
  fields u !! "password_hash" <> Some (VStr (hash_password (password payload))) ->
  login (Some d) env payload
  = (Raise (HTTPException 401 "Invalid credentials"), Some d).
Proof.
  intros Hin Hname Hact Huniq Hpw.
  apply login_wrong_digest with u; [|exact Hpw].
  now apply find_active_user.
Qed.

Lemma login_wrong_password_witness :
  login (Some Sample.store) Sample.env Sample.wrong_credentials
  = (Raise (HTTPException 401 "Invalid credentials"), Some Sample.store).
Proof.
  apply (login_wrong_password Sample.store Sample.alice Sample.env
           Sample.wrong_credentials).
  - apply list_elem_of_here.
  - by_evaluation.
  - by_evaluation.
  - intros u' Hu' _ _. apply list_elem_of_singleton in Hu'. exact Hu'.
  - vm_compute. discriminate.
Defined.

End LoginAuthenticate.

(** ** Token validation *)

Section Authenticate.

Implicit Types (d : Database) (s : document) (env : Env) (h : string).

(** C3: when every stored session that carries the token of the header is
    marked revoked (none at all when the token is not in the session
    store), [require_auth] raises [HTTPException 401]. *)
Theorem authenticate_unknown_or_revoked d env h :
  (forall s, s ∈ session d ->
     fields s !! "token" = Some (VStr (str_replace "Bearer " "" h)) ->
     fields s !! "revoked" = Some (VBool true)) ->
  require_auth (Some d) env (Some h) = Raise (HTTPException 401 "Invalid token")
  /\ Unauthorized (require_auth (Some d) env (Some h)).
Proof.
  intros Hrev.
  assert (H : require_auth (Some d) env (Some h)
              = Raise (HTTPException 401 "Invalid token")).
  { apply require_auth_not_found, find_one_None. intros s Hs.
    destruct (doc_matches _ s) eqn:E; [|reflexivity].
    apply doc_matches_2 in E as [Htok Hfalse].
    rewrite (Hrev s Hs Htok) in Hfalse. discriminate. }
  split; [exact H|]. rewrite H. now eexists.
Qed.

Lemma authenticate_unknown_or_revoked_witness :
  require_auth (Some (Sample.sessions [Sample.session_doc 5 "t0k3n" None true]))
    Sample.env (Some "Bearer t0k3n")
  = Raise (HTTPException 401 "Invalid token")
  /\ Unauthorized
       (require_auth (Some (Sample.sessions [Sample.session_doc 5 "t0k3n" None true]))
          Sample.env (Some "Bearer t0k3n")).
Proof.
  apply (authenticate_unknown_or_revoked
           (Sample.sessions [Sample.session_doc 5 "t0k3n" None true])
           Sample.env "Bearer t0k3n").
  intros s Hs _. apply list_elem_of_singleton in Hs. rewrite Hs.
  by_evaluation.
Defined.

Lemma find_live_session d s tok :
  s ∈ session d ->
  fields s !! "token" = Some (VStr tok) ->
  fields s !! "revoked" = Some (VBool false) ->
  (forall s', s' ∈ session d ->
     fields s' !! "token" = Some (VStr tok) ->
     fields s' !! "revoked" = Some (VBool false) -> s' = s) ->
  find_one [("token", VStr tok); ("revoked", VBool false)] (session d) = Some s.
Proof.
  intros Hin Htok Hrev Huniq. apply find_one_unique; [exact Hin| |].
  - now apply doc_matches_2.
  - intros s' Hin' Hm. apply doc_matches_2 in Hm as [? ?]. now apply Huniq.
Qed.

(** C4: for a stored session that is not revoked (the only such one for its
    token), [require_auth] raises [HTTPException 401] exactly when the
    session has an [expires_at] that is a time strictly before the current
    time; with an [expires_at] not before the current time, and with no
    [expires_at] at all, it returns the session. *)
Theorem authenticate_expiry d env h s :
  s ∈ session d ->
  fields s !! "token" = Some (VStr (str_replace "Bearer " "" h)) ->
  fields s !! "revoked" = Some (VBool false) ->
  (forall s', s' ∈ session d ->
     fields s' !! "token" = Some (VStr (str_replace "Bearer " "" h)) ->
     fields s' !! "revoked" = Some (VBool false) -> s' = s) ->
  (Unauthorized (require_auth (Some d) env (Some h)) <->
   exists t, fields s !! "expires_at" = Some (VDate t) /\ t < utcnow env 0)
  /\ (forall t, fields s !! "expires_at" = Some (VDate t) -> utcnow env 0 <= t ->
      require_auth (Some d) env (Some h) = Ok (to_dict s))
  /\ (fields s !! "expires_at" = None ->
      require_auth (Some d) env (Some h) = Ok (to_dict s)).
Proof.
  intros Hin Htok Hrev Huniq.
  rewrite (require_auth_found d env h s)
    by now apply find_live_session.
  destruct (fields s !! "expires_at") as [v|] eqn:E.
  - split; [|split; [|discriminate]].
    + split.
      * intros [detail Hd]. destruct v as [|b|str|t|n];
          try (destruct (truthy _); discriminate Hd).
        exists t. split; [reflexivity|].
        destruct (Z.ltb_spec t (utcnow env 0)); [assumption|discriminate Hd].
      * intros (t & Ht & Hlt). injection Ht as ->.
        destruct (Z.ltb_spec t (utcnow env 0)); [now eexists|lia].
    + intros t Ht Hle. injection Ht as ->.
      destruct (Z.ltb_spec t (utcnow env 0)); [lia|reflexivity].
  - split; [|split; [discriminate|reflexivity]].
    split.
    + intros [detail Hd]. discriminate Hd.
    + intros (t & Ht & _). discriminate Ht.
Qed.

Lemma authenticate_expiry_witness :
  let d := Sample.sessions [Sample.session_doc 5 "t0k3n" (Some 999) false] in
  let s := Sample.session_doc 5 "t0k3n" (Some 999) false in
  (Unauthorized (require_auth (Some d) Sample.env (Some "Bearer t0k3n")) <->
   exists t, fields s !! "expires_at" = Some (VDate t) /\ t < utcnow Sample.env 0)
  /\ (forall t, fields s !! "expires_at" = Some (VDate t) ->
      utcnow Sample.env 0 <= t ->
      require_auth (Some d) Sample.env (Some "Bearer t0k3n") = Ok (to_dict s))
  /\ (fields s !! "expires_at" = None ->
      require_auth (Some d) Sample.env (Some "Bearer t0k3n") = Ok (to_dict s)).
Proof.
  intros d s.
  apply (authenticate_expiry d Sample.env "Bearer t0k3n" s).
  - apply list_elem_of_here.
  - by_evaluation.
  - by_evaluation.
  - intros s' Hs' _ _. apply list_elem_of_singleton in Hs'. exact Hs'.
Defined.

(** The session of the witness above is expired at the time of the call,
    and one without [expires_at] is accepted at any time. *)
Example authenticate_expired_sample :
  require_auth
    (Some (Sample.sessions [Sample.session_doc 5 "t0k3n" (Some 999) false]))
    Sample.env (Some "Bearer t0k3n")
  = Raise (HTTPException 401 "Token expired").
Proof. by_evaluation. Qed.

Example authenticate_no_expiry_sample :
  require_auth
    (Some (Sample.sessions [Sample.session_doc 5 "t0k3n" None false]))
    Sample.late (Some "t0k3n")
  = Ok (to_dict (Sample.session_doc 5 "t0k3n" None false)).
Proof. by_evaluation. Qed.

End Authenticate.

(** ** The [Authorization] header *)

Section Header.

Implicit Types (d : Database) (env : Env) (h t : string).

(** C5, as stated, fails: a header that does not start with "Bearer " still
    loses the text "Bearer " found further on, so the token that is looked
    up is not what is left of the header after dropping a leading
    "Bearer ". The header below is not a stored token and yet it is
    accepted, as the session whose token is "abcdef". *)
Lemma bearer_inside_header_removed :
  String.prefix "Bearer " "abcBearer def" = false /\
  find_one [("token", VStr "abcBearer def"); ("revoked", VBool false)]
    (session (Sample.sessions [Sample.session_doc 5 "abcdef" None false]))
  = None /\
  require_auth (Some (Sample.sessions [Sample.session_doc 5 "abcdef" None false]))
    Sample.env (Some "abcBearer def")
  = Ok (to_dict (Sample.session_doc 5 "abcdef" None false)).
Proof.
  split; [by_evaluation|]. split; by_evaluation.
Qed.

(** C5 (amended): [require_auth] raises [HTTPException 401] when the header
    is absent. For a token [t] in which the text "Bearer " does not occur,
    the header "Bearer " followed by [t] and the bare header [t] are both
    read as [t], and [t] is what is looked up: with a store, the call is
    rejected as an invalid token exactly when no session that is not
    revoked carries [t]; without a store, it is accepted exactly when [t]
    is the demo token. *)
Theorem authenticate_header db env t h :
  contains "Bearer " t = false ->
  h = t \/ h = "Bearer " ++ t ->
  require_auth db env None
  = Raise (HTTPException 401 "Missing Authorization header")
  /\ str_replace "Bearer " "" h = t
  /\ (forall d, db = Some d ->
        (require_auth db env (Some h) = Raise (HTTPException 401 "Invalid token")
         <-> find_one [("token", VStr t); ("revoked", VBool false)] (session d)
             = None))
  /\ (db = None ->
      require_auth db env (Some h)
      = if String.eqb t "demo-token"
        then Ok (<["role" := VStr "admin"]> (<["name" := VStr "Administrator"]> ∅))
        else Raise (HTTPException 401 "Invalid token")).
Proof.
  intros Hfree Hh.
  assert (Ht : str_replace "Bearer " "" h = t).
  { destruct Hh as [-> | ->].
    - now apply replace_Bearer_absent.
    - rewrite replace_Bearer_prefix. now apply replace_Bearer_absent. }
  split; [reflexivity|]. split; [exact Ht|]. split.
  - intros d ->. split.
    + intros H.
      destruct (find_one [("token", VStr t); ("revoked", VBool false)]
                  (session d)) as [s|] eqn:E; [|reflexivity].
      rewrite <- Ht in E. rewrite (require_auth_found d env h s E) in H.
      destruct (fields s !! "expires_at") as [[|b|str|t'|n]|];
        repeat match type of H with
               | (if ?c then _ else _) = _ => destruct c
               end; discriminate H.
    + intros E. apply require_auth_not_found. now rewrite Ht.
  - intros ->. unfold require_auth. now rewrite Ht.
Qed.

Lemma authenticate_header_witness :
  require_auth (Some (Sample.sessions [Sample.session_doc 5 "t0k3n" None false]))
    Sample.env None
  = Raise (HTTPException 401 "Missing Authorization header")
  /\ str_replace "Bearer " "" "Bearer t0k3n" = "t0k3n"
  /\ (forall d,
        Some (Sample.sessions [Sample.session_doc 5 "t0k3n" None false]) = Some d ->
        (require_auth
           (Some (Sample.sessions [Sample.session_doc 5 "t0k3n" None false]))
           Sample.env (Some "Bearer t0k3n")
         = Raise (HTTPException 401 "Invalid token")
         <-> find_one [("token", VStr "t0k3n"); ("revoked", VBool false)]
               (session d) = None))
  /\ (Some (Sample.sessions [Sample.session_doc 5 "t0k3n" None false]) = None ->
      require_auth
        (Some (Sample.sessions [Sample.session_doc 5 "t0k3n" None false]))
        Sample.env (Some "Bearer t0k3n")
      = if String.eqb "t0k3n" "demo-token"
        then Ok (<["role" := VStr "admin"]> (<["name" := VStr "Administrator"]> ∅))
        else Raise (HTTPException 401 "Invalid token")).
Proof.
  apply (authenticate_header
           (Some (Sample.sessions [Sample.session_doc 5 "t0k3n" None false]))
           Sample.env "t0k3n" "Bearer t0k3n").
  - by_evaluation.
  - right. reflexivity.
Defined.

(** The scheme is not required: the bare demo token authenticates. *)
Example authenticate_bare_demo_token :
  require_auth None Sample.env (Some "demo-token")
  = Ok (<["role" := VStr "admin"]> (<["name" := VStr "Administrator"]> ∅)).
Proof. by_evaluation. Qed.

End Header.

(** ** Login without a store, and what a login issues *)

Section Login.

Implicit Types (d : Database) (u s : document) (env : Env)
  (payload : LoginRequest).

(** C6: with no store configured, [login] answers the pair "admin" /
    "admin123" with exactly the demo token, the name "Administrator" and
    the role "admin", and raises [HTTPException 500] for every other
    pair. *)
Theorem login_without_store env payload :
  login None env {| username := "admin"; password := "admin123" |}
  = (Ok (<["token" := VStr "demo-token"]>
         (<["name" := VStr "Administrator"]>
         (<["role" := VStr "admin"]> ∅))), None)
  /\ ((username payload, password payload) <> ("admin", "admin123") ->
      login None env payload
      = (Raise (HTTPException 500 "Database not configured"), None)).
Proof.
  split; [reflexivity|].
  intros Hne. unfold login.
  destruct (String.eqb_spec (username payload) "admin") as [Hu|Hu];
    [|reflexivity].
  destruct (String.eqb_spec (password payload) "admin123") as [Hp|Hp];
    [|reflexivity].
  exfalso. apply Hne. now rewrite Hu, Hp.
Qed.

Lemma login_without_store_witness :
  login None Sample.env {| username := "admin"; password := "admin123" |}
  = (Ok (<["token" := VStr "demo-token"]>
         (<["name" := VStr "Administrator"]>
         (<["role" := VStr "admin"]> ∅))), None)
  /\ login None Sample.env {| username := "admin"; password := "admin" |}
     = (Raise (HTTPException 500 "Database not configured"), None).
Proof.
  destruct (login_without_store Sample.env
              {| username := "admin"; password := "admin" |}) as [Hdemo Hother].
  split; [exact Hdemo|]. apply Hother. discriminate.
Defined.

(** C7: a [login] that succeeds on a configured store returns a token of
    48 hexadecimal digits, appends to the session collection one session
    with that token, [revoked] false and [expires_at] the time read at
    issuance plus eight hours, and answers with the token, the name of the
    user ("Admin" when the user has none) and the role of the user
    ("admin" when the user has none). *)
Theorem login_issues_session d env payload resp db' :
  login (Some d) env payload = (Ok resp, db') ->
  exists u s tok,
    find_one [("username", VStr (username payload)); ("is_active", VBool true)]
      (adminuser d) = Some u
    /\ db' = Some {| adminuser := adminuser d; session := session d ++ [s] |}
    /\ tok = token_hex env 24
    /\ all_hex tok = true
    /\ String.length tok = 48%nat
    /\ resp !! "token" = Some (VStr tok)
    /\ resp !! "name" = Some (default (VStr "Admin") (fields u !! "name"))
    /\ resp !! "role" = Some (default (VStr "admin") (fields u !! "role"))
    /\ fields s !! "token" = Some (VStr tok)
    /\ fields s !! "revoked" = Some (VBool false)
    /\ fields s !! "expires_at"
       = Some (VDate (utcnow env 0 + timedelta_hours 8)).
Proof.
  intros Hlogin.
  destruct (login_Ok_inv d env payload resp db' Hlogin) as (u & Hfind & Hpw).
  destruct (login_found d env payload u Hfind Hpw)
    as (resp' & s & Hlogin' & Htok & Hname & Hrole & _ & Hstok & _
        & Hexp & Hrev & _).
  rewrite Hlogin in Hlogin'. injection Hlogin' as <- ->.
  exists u, s, (token_hex env 24).
  split; [exact Hfind|]. split; [reflexivity|]. split; [reflexivity|].
  split; [apply all_hex_token_hex|]. split; [apply length_token_hex|].
  now repeat split.
Qed.

Lemma login_issues_session_witness :
  exists u s tok,
    find_one [("username", VStr (username Sample.credentials));
              ("is_active", VBool true)] (adminuser Sample.store) = Some u
    /\ Some Sample.store_after_login
       = Some {| adminuser := adminuser Sample.store;
                 session := session Sample.store ++ [s] |}
    /\ tok = token_hex Sample.env 24
    /\ all_hex tok = true
    /\ String.length tok = 48%nat
    /\ Sample.response !! "token" = Some (VStr tok)
    /\ Sample.response !! "name"
       = Some (default (VStr "Admin") (fields u !! "name"))
    /\ Sample.response !! "role"
       = Some (default (VStr "admin") (fields u !! "role"))
    /\ fields s !! "token" = Some (VStr tok)
    /\ fields s !! "revoked" = Some (VBool false)
    /\ fields s !! "expires_at"
       = Some (VDate (utcnow Sample.env 0 + timedelta_hours 8)).
Proof.
  apply (login_issues_session Sample.store Sample.env Sample.credentials
           Sample.response
           (Some Sample.store_after_login)).
  by_evaluation.
Defined.

Example timedelta_8_hours : timedelta_hours 8 = 28800000000.
Proof. reflexivity. Qed.

Example login_sample_response :
  login (Some Sample.store) Sample.env Sample.credentials
  = (Ok Sample.response, Some Sample.store_after_login).
Proof. by_evaluation. Qed.

End Login.

(** ** Bootstrap *)

Section Bootstrap.

Implicit Types (d : Database) (u : document) (env : Env) (envs : list Env).

Lemma with_username_nil name coll :
  (forall u, u ∈ coll -> fields u !! "username" <> Some (VStr name)) ->
  with_username name coll = [].
Proof.
  unfold with_username. induction coll as [|x coll IH]; [reflexivity|].
  intros H. cbn [List.filter].
  rewrite bool_decide_eq_false_2 by (apply H, list_elem_of_here).
  apply IH. intros u Hu. apply H. now apply list_elem_of_further.
Qed.

Lemma with_username_app name coll coll' :
  with_username name (coll ++ coll')
  = (with_username name coll ++ with_username name coll')%list.
Proof. apply List.filter_app. Qed.

Lemma find_admin_None d :
  (forall u, u ∈ adminuser d -> fields u !! "username" <> Some (VStr "admin")) ->
  find_one [("username", VStr "admin")] (adminuser d) = None.
Proof.
  intros H. apply find_one_None. intros u Hu.
  destruct (doc_matches _ u) eqn:E; [|reflexivity].
  apply doc_matches_1 in E. now apply H in E.
Qed.

(** On a store without an "admin" document, Bootstrap appends one. *)
Lemma create_default_admin_fresh d env :
  (forall u, u ∈ adminuser d -> fields u !! "username" <> Some (VStr "admin")) ->
  exists u,
    create_default_admin (Some d) env
    = Some {| adminuser := adminuser d ++ [u]; session := session d |}
    /\ fields u !! "username" = Some (VStr "admin")
    /\ fields u !! "password_hash" = Some (VStr (hash_password "admin123"))
    /\ fields u !! "is_active" = Some (VBool true)
    /\ fields u !! "name" = Some (VStr "Administrator")
    /\ fields u !! "role" = Some (VStr "admin").
Proof.
  intros H. unfold create_default_admin. rewrite (find_admin_None d H).
  unfold insert_one. eexists (Document _ _). split; [reflexivity|].
  cbn [fields].
  repeat split;
    repeat (rewrite lookup_insert_ne by discriminate);
    now rewrite lookup_insert_eq.
Qed.

(** On a store with an "admin" document, Bootstrap changes nothing. *)
Lemma create_default_admin_present d env u :
  u ∈ adminuser d -> fields u !! "username" = Some (VStr "admin") ->
  create_default_admin (Some d) env = Some d.
Proof.
  intros Hin Hname. unfold create_default_admin.
  destruct (find_one [("username", VStr "admin")] (adminuser d)) eqn:E;
    [reflexivity|].
  pose proof (proj1 (find_one_None _ _) E u Hin) as Hm.
  apply doc_matches_1 in Hname. congruence.
Qed.

Lemma bootstrap_many_present d envs u :
  u ∈ adminuser d -> fields u !! "username" = Some (VStr "admin") ->
  bootstrap_many (Some d) envs = Some d.
Proof.
  intros Hin Hname. unfold bootstrap_many.
  induction envs as [|e envs IH]; [reflexivity|].
  cbn [fold_left]. now rewrite (create_default_admin_present d e u).
Qed.

(** C8: on a configured store that holds no document with username
    "admin", running Bootstrap one or more times leaves the store as the
    first run left it, with exactly one document whose username is
    "admin". *)
Theorem bootstrap_idempotent d envs :
  envs <> [] ->
  (forall u, u ∈ adminuser d -> fields u !! "username" <> Some (VStr "admin")) ->
  exists e rest d',
    envs = e :: rest
    /\ create_default_admin (Some d) e = Some d'
    /\ bootstrap_many (Some d) envs = Some d'
    /\ List.length (with_username "admin" (adminuser d')) = 1%nat.
Proof.
  intros Hne Hnone. destruct envs as [|e envs]; [congruence|].
  destruct (create_default_admin_fresh d e Hnone)
    as (u & Hcreate & Hname & _).
  eexists e, envs, _. split; [reflexivity|]. split; [exact Hcreate|].
  unfold bootstrap_many. cbn [fold_left]. rewrite Hcreate. split.
  - apply (bootstrap_many_present _ envs u); [|exact Hname].
    cbn [adminuser]. apply elem_of_app. right. apply list_elem_of_here.
  - cbn [adminuser]. rewrite with_username_app, (with_username_nil _ _ Hnone).
    unfold with_username. cbn [List.filter app].
    now rewrite bool_decide_eq_true_2.
Qed.

Lemma bootstrap_idempotent_witness :
  exists e rest d',
    [Sample.env; Sample.late; Sample.env] = e :: rest
    /\ create_default_admin (Some Sample.store) e = Some d'
    /\ bootstrap_many (Some Sample.store) [Sample.env; Sample.late; Sample.env]
       = Some d'
    /\ List.length (with_username "admin" (adminuser d')) = 1%nat.
Proof.
  apply (bootstrap_idempotent Sample.store
           [Sample.env; Sample.late; Sample.env]).
  - discriminate.
  - intros u Hu. apply list_elem_of_singleton in Hu. rewrite Hu.
    vm_compute. discriminate.
Defined.

(** C9: after Bootstrap on a configured store that held no document with
    username "admin", the store holds an active "admin" document whose
    [password_hash] is the hash of "admin123", and [login] with "admin" and
    "admin123" succeeds. *)
Theorem bootstrap_then_login d env env' :
  (forall u, u ∈ adminuser d -> fields u !! "username" <> Some (VStr "admin")) ->
  exists d1 u resp d2,
    create_default_admin (Some d) env = Some d1
    /\ u ∈ adminuser d1
    /\ fields u !! "username" = Some (VStr "admin")
    /\ fields u !! "password_hash" = Some (VStr (hash_password "admin123"))
    /\ fields u !! "is_active" = Some (VBool true)
    /\ login (Some d1) env' {| username := "admin"; password := "admin123" |}
       = (Ok resp, Some d2)
    /\ resp !! "token" = Some (VStr (token_hex env' 24))
    /\ resp !! "name" = Some (VStr "Administrator")
    /\ resp !! "role" = Some (VStr "admin").
Proof.
  intros Hnone.
  destruct (create_default_admin_fresh d env Hnone)
    as (u & Hcreate & Hname & Hpw & Hact & Hdisplay & Hrole).
  set (d1 := {| adminuser := adminuser d ++ [u]; session := session d |}) in *.
  assert (Hin : u ∈ adminuser d1)
    by (cbn [d1 adminuser]; apply elem_of_app; right; apply list_elem_of_here).
  assert (Hfind :
    find_one [("username", VStr "admin"); ("is_active", VBool true)]
      (adminuser d1) = Some u).
  { destruct u as [oid fs]. cbn [d1 adminuser].
    change (adminuser d ++ [Document oid fs])%list
      with (insert_one oid fs (adminuser d)).
    apply find_one_insert_fresh; [|now apply doc_matches_2].
    apply find_one_None. intros u' Hu'.
    destruct (doc_matches _ u') eqn:E; [|reflexivity].
    apply doc_matches_2 in E as [E _]. now apply Hnone in E. }
  destruct (login_found d1 env' {| username := "admin"; password := "admin123" |}
              u Hfind Hpw)
    as (resp & s & Hlogin & Htok & Hrname & Hrrole & _).
  rewrite Hdisplay in Hrname. rewrite Hrole in Hrrole.
  exists d1, u, resp. eexists. repeat split; eassumption.
Qed.

Lemma bootstrap_then_login_witness :
  exists d1 u resp d2,
    create_default_admin (Some Sample.empty_store) Sample.env = Some d1
    /\ u ∈ adminuser d1
    /\ fields u !! "username" = Some (VStr "admin")
    /\ fields u !! "password_hash" = Some (VStr (hash_password "admin123"))
    /\ fields u !! "is_active" = Some (VBool true)
    /\ login (Some d1) Sample.late
         {| username := "admin"; password := "admin123" |}
       = (Ok resp, Some d2)
    /\ resp !! "token" = Some (VStr (token_hex Sample.late 24))
    /\ resp !! "name" = Some (VStr "Administrator")
    /\ resp !! "role" = Some (VStr "admin").
Proof.
  apply (bootstrap_then_login Sample.empty_store Sample.env Sample.late).
  intros u Hu. apply elem_of_nil in Hu. destruct Hu.
Defined.

(** Without a store, Bootstrap does nothing. *)
Example bootstrap_without_store env : create_default_admin None env = None.
Proof. reflexivity. Qed.

End Bootstrap.

(** ** The dashboard *)

Section DashboardName.

Implicit Types (d : Database) (s : document) (env : Env)
  (payload : LoginRequest).

(** A session without a [name] is shown as "Administrator". *)
Lemma dashboard_default_name s :
  fields s !! "name" = None ->
  user (dashboard (to_dict s)) !! "name" = Some (VStr "Administrator").
Proof.
  intros H. unfold dashboard, dict_get_default. cbn [user].
  rewrite to_dict_lookup by discriminate. rewrite H.
  now rewrite lookup_insert_eq.
Qed.

(** C10: the session a login on a configured store has created carries no
    [name], so [dashboard] given that session reports the name
    "Administrator", whatever name the user has; and so does the dashboard
    route called with the issued token (not yet in the store before the
    login) up to eight hours after the issuance. *)
Theorem dashboard_name_after_login d env payload resp db' :
  login (Some d) env payload = (Ok resp, db') ->
  exists s,
    db' = Some {| adminuser := adminuser d; session := session d ++ [s] |}
    /\ resp !! "token" = Some (VStr (token_hex env 24))
    /\ fields s !! "token" = Some (VStr (token_hex env 24))
    /\ fields s !! "name" = None
    /\ user (dashboard (to_dict s)) !! "name" = Some (VStr "Administrator")
    /\ forall env',
         (forall s', s' ∈ session d ->
            fields s' !! "token" <> Some (VStr (token_hex env 24))) ->
         utcnow env' 0 <= utcnow env 0 + timedelta_hours 8 ->
         get_dashboard db' env' (Some ("Bearer " ++ token_hex env 24))
         = Ok (dashboard (to_dict s)).
Proof.
  intros Hlogin.
  destruct (login_Ok_inv d env payload resp db' Hlogin) as (u & Hfind & Hpw).
  destruct (login_found d env payload u Hfind Hpw)
    as (resp' & s & Hlogin' & Htok & _ & _ & _ & Hstok & _ & Hexp & Hrev & Hname).
  rewrite Hlogin in Hlogin'. injection Hlogin' as <- ->.
  exists s. split; [reflexivity|]. split; [exact Htok|]. split; [exact Hstok|].
  split; [exact Hname|]. split; [now apply dashboard_default_name|].
  intros env' Hfresh Htime. unfold get_dashboard.
  rewrite (authenticate_issued d env env' _ s Hfresh Hstok Hrev Hexp Htime);
    [reflexivity|]. now right.
Qed.

Lemma dashboard_name_after_login_witness :
  exists s,
    Some Sample.store_after_login
    = Some {| adminuser := adminuser Sample.store;
              session := session Sample.store ++ [s] |}
    /\ Sample.response !! "token" = Some (VStr (token_hex Sample.env 24))
    /\ fields s !! "token" = Some (VStr (token_hex Sample.env 24))
    /\ fields s !! "name" = None
    /\ user (dashboard (to_dict s)) !! "name" = Some (VStr "Administrator")
    /\ forall env',
         (forall s', s' ∈ session Sample.store ->
            fields s' !! "token" <> Some (VStr (token_hex Sample.env 24))) ->
         utcnow env' 0 <= utcnow Sample.env 0 + timedelta_hours 8 ->
         get_dashboard
           (Some Sample.store_after_login)
           env' (Some ("Bearer " ++ token_hex Sample.env 24))
         = Ok (dashboard (to_dict s)).
Proof.
  apply (dashboard_name_after_login Sample.store Sample.env Sample.credentials
           Sample.response
           (Some Sample.store_after_login)).
  by_evaluation.
Defined.

(** The user of the sample is called "Alice", [login] says so, and the
    dashboard called with the token just issued says "Administrator". *)
Example dashboard_sample :
  Sample.response !! "name" = Some (VStr "Alice") /\
  get_dashboard (Some Sample.store_after_login) Sample.env
    (Some ("Bearer " ++ Sample.token))
  = Ok (dashboard (to_dict (List.last (session Sample.store_after_login)
                               Sample.alice))) /\
  user (dashboard (to_dict (List.last (session Sample.store_after_login)
                              Sample.alice))) !! "name"
  = Some (VStr "Administrator").
Proof. repeat (split; [by_evaluation|]). by_evaluation. Qed.

(** In demo mode the dashboard answers the demo token, with the fixed
    figures, and rejects any other. *)
Example dashboard_demo :
  get_dashboard None Sample.env (Some "Bearer demo-token")
  = Ok (dashboard (<["role" := VStr "admin"]>
                   (<["name" := VStr "Administrator"]> ∅))) /\
  stats (dashboard (<["role" := VStr "admin"]>
                    (<["name" := VStr "Administrator"]> ∅)))
  = [("students", 1240); ("teachers", 68); ("classes", 32); ("alumni", 5400)] /\
  get_dashboard None Sample.env (Some "Bearer wrong")
  = Raise (HTTPException 401 "Invalid token").
Proof. repeat (split; [by_evaluation|]). by_evaluation. Qed.

End DashboardName.

(** * Further properties of the code *)

(** ** What [replace] does to a header *)

Section HeaderText.

Implicit Types (old s h : string) (k : nat).

Lemma length_replace_from old s k :
  (String.length (replace_from old "" k s) + Nat.min k (String.length s)
   <= String.length s)%nat.
Proof.
  revert k. induction s as [|c s IH]; intros k; [cbn; lia|].
  cbn [replace_from String.length]. destruct k as [|k].
  - destruct (String.prefix old (String c s)).
    + change ("" ++ ?x) with x. specialize (IH (Nat.pred (String.length old))). lia.
    + cbn [String.length]. specialize (IH O). lia.
  - specialize (IH k). lia.
Qed.

Lemma length_replace_from_present old s :
  old <> "" -> contains old s = true ->
  (String.length (replace_from old "" O s) < String.length s)%nat.
Proof.
  intros Hold. induction s as [|c s IH]; cbn [contains].
  - destruct old; [congruence|]. cbn. discriminate.
  - intros H. cbn [replace_from String.length].
    destruct (String.prefix old (String c s)).
    + change ("" ++ ?x) with x.
      pose proof (length_replace_from old s (Nat.pred (String.length old))).
      lia.
    + cbn [orb] in H. cbn [String.length]. specialize (IH H). lia.
Qed.

(** X4: the scheme is optional for every header, whatever follows it:
    [require_auth] answers "Bearer " followed by [h] as it answers [h]. *)
Theorem require_auth_scheme_optional db env h :
  require_auth db env (Some ("Bearer " ++ h)) = require_auth db env (Some h).
Proof. unfold require_auth. now rewrite replace_Bearer_prefix. Qed.

(** X5: the token that is looked up is the header itself exactly when the
    text "Bearer " does not occur in the header; it is never longer than
    the header. *)
Theorem token_is_header_iff h :
  (str_replace "Bearer " "" h = h <-> contains "Bearer " h = false)
  /\ (String.length (str_replace "Bearer " "" h) <= String.length h)%nat.
Proof.
  split; [split|].
  - intros Heq. destruct (contains "Bearer " h) eqn:E; [|reflexivity].
    pose proof (length_replace_from_present "Bearer " h) as Hlt.
    unfold str_replace in Heq. rewrite Heq in Hlt.
    specialize (Hlt ltac:(discriminate) E). lia.
  - apply replace_Bearer_absent.
  - pose proof (length_replace_from "Bearer " h O) as H.
    unfold str_replace. lia.
Qed.

End HeaderText.

(** ** Digests and tokens *)

Section Digest.

Lemma length_be_bytes n x : List.length (SHA256.be_bytes n x) = n.
Proof. unfold SHA256.be_bytes. now rewrite length_map, length_rev, length_seq. Qed.

Lemma length_compress h block :
  List.length h = 8%nat -> List.length (SHA256.compress h block) = 8%nat.
Proof.
  intros H. unfold SHA256.compress. cbv zeta.
  rewrite length_map, length_combine, H. reflexivity.
Qed.

Lemma length_fold_compress blocks h :
  List.length h = 8%nat ->
  List.length (fold_left SHA256.compress blocks h) = 8%nat.
Proof.
  revert h. induction blocks as [|b blocks IH]; intros h H; [exact H|].
  cbn [fold_left]. apply IH. now apply length_compress.
Qed.

Lemma length_flat_be_bytes ws :
  List.length (flat_map (SHA256.be_bytes 4) ws) = (4 * List.length ws)%nat.
Proof.
  induction ws as [|w ws IH]; [reflexivity|].
  cbn [flat_map]. rewrite length_app, length_be_bytes, IH. cbn [List.length]. lia.
Qed.

Lemma length_digest msg : List.length (SHA256.digest msg) = 32%nat.
Proof.
  unfold SHA256.digest. cbv zeta.
  rewrite length_flat_be_bytes, length_fold_compress; reflexivity.
Qed.

Lemma length_hash_password password :
  String.length (hash_password password) = 64%nat.
Proof.
  unfold hash_password, sha256_hexdigest.
  now rewrite length_hex, length_map, length_digest.
Qed.

(** X6: whatever the password, its digest is a text of exactly 64
    hexadecimal digits. *)
Theorem hash_password_format password :
  String.length (hash_password password) = 64%nat
  /\ all_hex (hash_password password) = true.
Proof.
  split; [apply length_hash_password|].
  unfold hash_password, sha256_hexdigest. apply all_hex_hex.
Qed.

Lemma unhex_hex_digit n : (n < 16)%N -> unhex_digit (hex_digit n) = n.
Proof.
  intros H. destruct n as [|p]; [reflexivity|].
  do 4 (try destruct p as [p|p|]; try reflexivity); lia.
Qed.

(** Reading a hexadecimal text back gives the bytes it was made from. *)
Lemma unhex_hex bs : Forall (fun b => (b < 256)%N) bs -> unhex (hex bs) = bs.
Proof.
  induction 1 as [|b bs Hb _ IH]; [reflexivity|].
  cbn [hex unhex]. rewrite IH, !unhex_hex_digit.
  - f_equal. pose proof (N.div_mod b 16). lia.
  - apply N.mod_lt. discriminate.
  - apply N.Div0.div_lt_upper_bound. lia.
Qed.

Lemma to_N_inj_list (l l' : list byte) :
  map Byte.to_N l = map Byte.to_N l' -> l = l'.
Proof.
  revert l'. induction l as [|b l IH]; intros [|b' l'] H;
    try discriminate; [reflexivity|].
  injection H as Hb Hl. f_equal; [|now apply IH].
  pose proof (Byte.of_to_N b) as H1. pose proof (Byte.of_to_N b') as H2.
  rewrite Hb in H1. congruence.
Qed.

(** X12: two tokens are equal exactly when the random bytes they were made
    from are: the hexadecimal encoding loses nothing. *)
Theorem token_hex_injective env env' n :
  token_hex env n = token_hex env' n <->
  forall i, (i < n)%nat -> urandom env i = urandom env' i.
Proof.
  unfold token_hex, token_bytes. split.
  - intros H i Hi.
    assert (Hb : forall e : Env,
               Forall (fun b => (b < 256)%N)
                 (map Byte.to_N (map (urandom e) (seq 0 n)))).
    { intros e. apply Forall_forall. intros b Hin.
      apply list_elem_of_In in Hin. apply in_map_iff in Hin as (x & <- & _).
      pose proof (Byte.to_N_bounded x). lia. }
    apply (f_equal unhex) in H. rewrite !unhex_hex in H by apply Hb.
    apply to_N_inj_list in H.
    apply (f_equal (fun l => nth_error l i)) in H.
    rewrite !nth_error_map, !nth_error_seq in H.
    destruct (Nat.ltb_spec i n) as [_|Hge]; [|lia].
    cbn in H. congruence.
  - intros H. do 2 f_equal. apply map_ext_in. intros i Hi.
    apply in_seq in Hi. apply H. lia.
Qed.

End Digest.

(** ** What [login] does to the store *)

Section LoginStore.

Implicit Types (d : Database) (u s : document) (env : Env)
  (payload : LoginRequest).

Lemma find_active_user_None d name :
  (forall u, u ∈ adminuser d ->
     fields u !! "username" = Some (VStr name) ->
     fields u !! "is_active" <> Some (VBool true)) ->
  find_one [("username", VStr name); ("is_active", VBool true)] (adminuser d)
  = None.
Proof.
  intros H. apply find_one_None. intros u Hu.
  destruct (doc_matches _ u) eqn:E; [|reflexivity].
  apply doc_matches_2 in E as [Hname Hact]. now apply (H u Hu Hname) in Hact.
Qed.

(** The store after a [login]: the one before, or that one with one session
    appended when the call succeeded. *)
Lemma login_store_cases d env payload :
  (exists e, login (Some d) env payload = (Raise e, Some d))
  \/ (exists resp s,
        login (Some d) env payload
        = (Ok resp, Some {| adminuser := adminuser d;
                            session := session d ++ [s] |})).
Proof.
  destruct (find_one [("username", VStr (username payload));
                      ("is_active", VBool true)] (adminuser d)) as [u|] eqn:Hfind.
  - destruct (decide (fields u !! "password_hash"
                      = Some (VStr (hash_password (password payload)))))
      as [Hpw|Hpw].
    + right. destruct (login_found d env payload u Hfind Hpw)
        as (resp & s & Hlogin & _). now exists resp, s.
    + left. eexists. now apply login_wrong_digest with u.
  - left. eexists. unfold login. now rewrite Hfind.
Qed.

Lemma require_auth_invalid_iff d env h :
  require_auth (Some d) env (Some h) = Raise (HTTPException 401 "Invalid token")
  <-> find_one [("token", VStr (str_replace "Bearer " "" h));
                ("revoked", VBool false)] (session d) = None.
Proof.
  split; [|apply require_auth_not_found].
  intros H.
  destruct (find_one _ (session d)) as [s|] eqn:E; [|reflexivity].
  rewrite (require_auth_found d env h s E) in H.
  destruct (fields s !! "expires_at") as [[|b|str|t|n]|];
    repeat match type of H with
           | (if ?c then _ else _) = _ => destruct c
           end; discriminate H.
Qed.

(** X1: when no active user carries the username, [login] raises
    [HTTPException 401] "User not found or inactive", whatever the
    password, and the store is left as it was. *)
Theorem login_unknown_or_inactive d env payload :
  (forall u, u ∈ adminuser d ->
     fields u !! "username" = Some (VStr (username payload)) ->
     fields u !! "is_active" <> Some (VBool true)) ->
  login (Some d) env payload
  = (Raise (HTTPException 401 "User not found or inactive"), Some d).
Proof.
  intros H. unfold login. now rewrite (find_active_user_None d _ H).
Qed.

Lemma login_unknown_or_inactive_witness :
  login (Some Fixture.disabled_store) Sample.env Fixture.admin_credentials
  = (Raise (HTTPException 401 "User not found or inactive"),
     Some Fixture.disabled_store).
Proof.
  apply (login_unknown_or_inactive Fixture.disabled_store Sample.env
           Fixture.admin_credentials).
  intros u Hu _. apply list_elem_of_singleton in Hu. rewrite Hu.
  vm_compute. discriminate.
Defined.

(** X2: [login] never changes the accounts; a call that raises leaves the
    whole store as it was, and a call that succeeds on a configured store
    appends exactly one session and keeps the earlier ones in place. *)
Theorem login_only_appends_sessions db env payload :
  match login db env payload with
  | (Raise _, db') => db' = db
  | (Ok _, db') =>
      (db = None /\ db' = None)
      \/ exists d s,
           db = Some d
           /\ db' = Some {| adminuser := adminuser d;
                            session := session d ++ [s] |}
  end.
Proof.
  destruct db as [d|].
  - destruct (login_store_cases d env payload)
      as [[e ->]|(resp & s & ->)]; [reflexivity|].
    right. now exists d, s.
  - unfold login. destruct (_ && _); [now left|reflexivity].
Qed.

(** X3: a header that is not rejected as an unknown token before a [login]
    is answered after it exactly as before, whether the login succeeds or
    not: logging in never invalidates or replaces a session in use. *)
Theorem login_preserves_authentication d env payload env' h :
  require_auth (Some d) env' (Some h)
  <> Raise (HTTPException 401 "Invalid token") ->
  require_auth (snd (login (Some d) env payload)) env' (Some h)
  = require_auth (Some d) env' (Some h).
Proof.
  intros Hvalid.
  destruct (find_one [("token", VStr (str_replace "Bearer " "" h));
                      ("revoked", VBool false)] (session d)) as [s|] eqn:E.
  - destruct (login_store_cases d env payload)
      as [[e ->]|(resp & [oid fs] & ->)]; [reflexivity|].
    cbn [snd]. rewrite (require_auth_found d env' h s E).
    apply require_auth_found. cbn [session].
    change (session d ++ [Document oid fs])%list
      with (insert_one oid fs (session d)).
    now apply find_one_insert_old.
  - exfalso. apply Hvalid. now apply require_auth_invalid_iff.
Qed.

Lemma login_preserves_authentication_witness :
  require_auth
    (snd (login (Some Sample.store_after_login) Fixture.other_env
            Sample.credentials))
    Sample.env (Some ("Bearer " ++ Sample.token))
  = require_auth (Some Sample.store_after_login) Sample.env
      (Some ("Bearer " ++ Sample.token)).
Proof.
  apply (login_preserves_authentication Sample.store_after_login
           Fixture.other_env Sample.credentials Sample.env
           ("Bearer " ++ Sample.token)).
  assert (E : require_auth (Some Sample.store_after_login) Sample.env
                (Some ("Bearer " ++ Sample.token))
              = Ok (to_dict (List.last (session Sample.store_after_login)
                               Sample.alice)))
    by by_evaluation.
  rewrite E. discriminate.
Defined.

(** X7: an active user whose stored [password_hash] is missing, or is not a
    text of 64 characters, cannot log in: [login] raises
    [HTTPException 401] "Invalid credentials" for every password. *)
Theorem login_malformed_digest d u env payload :
  u ∈ adminuser d ->
  fields u !! "username" = Some (VStr (username payload)) ->
  fields u !! "is_active" = Some (VBool true) ->
  (forall u', u' ∈ adminuser d ->
     fields u' !! "username" = Some (VStr (username payload)) ->
     fields u' !! "is_active" = Some (VBool true) -> u' = u) ->
  (forall digest, fields u !! "password_hash" = Some (VStr digest) ->
     String.length digest <> 64%nat) ->
  login (Some d) env payload
  = (Raise (HTTPException 401 "Invalid credentials"), Some d).
Proof.
  intros Hin Hname Hact Huniq Hbad.
  apply login_wrong_digest with u; [now apply find_active_user|].
  intros Hpw. apply (Hbad _ Hpw), length_hash_password.
Qed.

Lemma login_malformed_digest_witness :
  login (Some Fixture.bob_store) Sample.env Fixture.bob_credentials
  = (Raise (HTTPException 401 "Invalid credentials"), Some Fixture.bob_store).
Proof.
  apply (login_malformed_digest Fixture.bob_store Fixture.bob Sample.env
           Fixture.bob_credentials).
  - apply list_elem_of_here.
  - by_evaluation.
  - by_evaluation.
  - intros u' Hu' _ _. apply list_elem_of_singleton in Hu'. exact Hu'.
  - intros digest H. vm_compute in H. discriminate H.
Defined.

End LoginStore.

(** ** Bootstrap on any store *)

Section BootstrapAny.

Implicit Types (d : Database) (u : document) (env : Env).

Lemma find_admin_cases d :
  (exists u, u ∈ adminuser d /\ fields u !! "username" = Some (VStr "admin"))
  \/ (forall u, u ∈ adminuser d ->
        fields u !! "username" <> Some (VStr "admin")).
Proof.
  destruct (find_one [("username", VStr "admin")] (adminuser d)) as [u|] eqn:E.
  - left. exists u. apply find_one_Some_inv in E as [Hin Hm].
    split; [exact Hin|now apply doc_matches_1].
  - right. intros u Hu Hname.
    pose proof (proj1 (find_one_None _ _) E u Hu) as Hm.
    apply doc_matches_1 in Hname. congruence.
Qed.

(** X8: Bootstrap looks for an "admin" document whether active or not, so
    it leaves a store whose "admin" accounts are all disabled as it is, and
    [login] as "admin" still raises [HTTPException 401] afterwards, with
    the default password as with any other. *)
Theorem bootstrap_keeps_disabled_admin d u env env' pw :
  u ∈ adminuser d ->
  fields u !! "username" = Some (VStr "admin") ->
  (forall u', u' ∈ adminuser d ->
     fields u' !! "username" = Some (VStr "admin") ->
     fields u' !! "is_active" <> Some (VBool true)) ->
  create_default_admin (Some d) env = Some d
  /\ login (create_default_admin (Some d) env) env'
       {| username := "admin"; password := pw |}
     = (Raise (HTTPException 401 "User not found or inactive"), Some d).
Proof.
  intros Hin Hname Hoff.
  rewrite (create_default_admin_present d env u Hin Hname).
  split; [reflexivity|].
  unfold login. cbn [username].
  now rewrite (find_active_user_None d "admin" Hoff).
Qed.

Lemma bootstrap_keeps_disabled_admin_witness :
  create_default_admin (Some Fixture.disabled_store) Sample.env
  = Some Fixture.disabled_store
  /\ login (create_default_admin (Some Fixture.disabled_store) Sample.env)
       Sample.late {| username := "admin"; password := "admin123" |}
     = (Raise (HTTPException 401 "User not found or inactive"),
        Some Fixture.disabled_store).
Proof.
  apply (bootstrap_keeps_disabled_admin Fixture.disabled_store
           Fixture.disabled_admin Sample.env Sample.late "admin123").
  - apply list_elem_of_here.
  - by_evaluation.
  - intros u' Hu' _. apply list_elem_of_singleton in Hu'. rewrite Hu'.
    vm_compute. discriminate.
Defined.

(** X9: on any store, configured or not, with or without an "admin"
    document, a second Bootstrap changes nothing; and one Bootstrap keeps
    the sessions, keeps the accounts in place and appends at most one. *)
Theorem bootstrap_twice db env env' :
  create_default_admin (create_default_admin db env) env'
  = create_default_admin db env
  /\ match db, create_default_admin db env with
     | None, after => after = None
     | Some d, Some d' =>
         session d' = session d
         /\ extends (adminuser d') (adminuser d)
         /\ (List.length (adminuser d') <= S (List.length (adminuser d)))%nat
     | Some _, None => False
     end.
Proof.
  destruct db as [d|]; [|split; reflexivity].
  destruct (find_admin_cases d) as [(u & Hin & Hname)|Hnone].
  - rewrite !(create_default_admin_present d _ u Hin Hname).
    split; [reflexivity|]. split; [reflexivity|]. split.
    + exists []. now rewrite app_nil_r.
    + lia.
  - destruct (create_default_admin_fresh d env Hnone)
      as (u & -> & Hname & _).
    split.
    + apply (create_default_admin_present _ env' u); [|exact Hname].
      cbn [adminuser]. apply elem_of_app. right. apply list_elem_of_here.
    + cbn [session adminuser]. split; [reflexivity|]. split.
      * now exists [u].
      * rewrite length_app. cbn [List.length]. lia.
Qed.

End BootstrapAny.

(** ** Time and the expiry field *)

Section Expiry.

Implicit Types (d : Database) (s : document) (env : Env) (h : string).

(** X10: expiry only moves one way. A header rejected as expired is
    rejected as expired at any later time, and a header accepted at some
    time is accepted, with the same session, at any earlier time. *)
Theorem expiry_is_monotone db env env' h :
  utcnow env 0 <= utcnow env' 0 ->
  (require_auth db env (Some h) = Raise (HTTPException 401 "Token expired") ->
   require_auth db env' (Some h) = Raise (HTTPException 401 "Token expired"))
  /\ (forall sess,
        require_auth db env' (Some h) = Ok sess ->
        require_auth db env (Some h) = Ok sess).
Proof.
  intros Htime. destruct db as [d|]; [|split; intros; assumption].
  destruct (find_one [("token", VStr (str_replace "Bearer " "" h));
                      ("revoked", VBool false)] (session d)) as [s|] eqn:E.
  - rewrite !(require_auth_found d _ h s E).
    destruct (fields s !! "expires_at") as [[|b|str|t|n]|];
      try (split; intros; assumption).
    destruct (Z.ltb_spec t (utcnow env 0)), (Z.ltb_spec t (utcnow env' 0));
      try lia; split; intros; first [assumption|discriminate].
  - rewrite !(require_auth_not_found d _ h E). split; intros; assumption.
Qed.

Lemma expiry_is_monotone_witness :
  (require_auth
     (Some (Sample.sessions [Sample.session_doc 5 "t0k3n" (Some 999) false]))
     Sample.env (Some "t0k3n")
   = Raise (HTTPException 401 "Token expired") ->
   require_auth
     (Some (Sample.sessions [Sample.session_doc 5 "t0k3n" (Some 999) false]))
     Sample.late (Some "t0k3n")
   = Raise (HTTPException 401 "Token expired"))
  /\ (forall sess,
        require_auth
          (Some (Sample.sessions [Sample.session_doc 5 "t0k3n" (Some 999) false]))
          Sample.late (Some "t0k3n") = Ok sess ->
        require_auth
          (Some (Sample.sessions [Sample.session_doc 5 "t0k3n" (Some 999) false]))
          Sample.env (Some "t0k3n") = Ok sess).
Proof.
  apply (expiry_is_monotone
           (Some (Sample.sessions [Sample.session_doc 5 "t0k3n" (Some 999) false]))
           Sample.env Sample.late "t0k3n").
  vm_compute. discriminate.
Defined.



End Expiry.

(** ** Demo mode *)

Section Demo.

Implicit Types (env : Env) (payload : LoginRequest).

(** X13: whatever [login] returns without a store is accepted by
    [require_auth] without a store, bare or after "Bearer " and at any
    time, with the role and the name that [login] returned, and the
    dashboard shows that name. *)
Theorem demo_login_then_dashboard env env' payload resp db' :
  login None env payload = (Ok resp, db') ->
  db' = None
  /\ exists tok,
       resp !! "token" = Some (VStr tok)
       /\ forall h, h = tok \/ h = "Bearer " ++ tok ->
            exists auth,
              require_auth None env' (Some h) = Ok auth
              /\ auth !! "role" = resp !! "role"
              /\ auth !! "name" = resp !! "name"
              /\ get_dashboard None env' (Some h) = Ok (dashboard auth)
              /\ user (dashboard auth) !! "name" = resp !! "name".
Proof.
  unfold login. destruct (_ && _); [|discriminate].
  intros H. injection H as <- <-. split; [reflexivity|].
  exists "demo-token". split; [by_evaluation|].
  intros h Hh.
  exists (<["role" := VStr "admin"]> (<["name" := VStr "Administrator"]> ∅)).
  assert (Hauth : require_auth None env' (Some h)
                  = Ok (<["role" := VStr "admin"]>
                        (<["name" := VStr "Administrator"]> ∅)))
    by (destruct Hh as [-> | ->]; reflexivity).
  split; [exact Hauth|]. split; [by_evaluation|]. split; [by_evaluation|].
  split; [|by_evaluation].
  unfold get_dashboard. now rewrite Hauth.
Qed.

Lemma demo_login_then_dashboard_witness :
  @None Database = None
  /\ exists tok,
       (<["token" := VStr "demo-token"]>
        (<["name" := VStr "Administrator"]>
        (<["role" := VStr "admin"]> (∅ : dict)))) !! "token" = Some (VStr tok)
       /\ forall h, h = tok \/ h = "Bearer " ++ tok ->
            exists auth,
              require_auth None Sample.late (Some h) = Ok auth
              /\ auth !! "role"
                 = (<["token" := VStr "demo-token"]>
                    (<["name" := VStr "Administrator"]>
                    (<["role" := VStr "admin"]> (∅ : dict)))) !! "role"
              /\ auth !! "name"
                 = (<["token" := VStr "demo-token"]>
                    (<["name" := VStr "Administrator"]>
                    (<["role" := VStr "admin"]> (∅ : dict)))) !! "name"
              /\ get_dashboard None Sample.late (Some h) = Ok (dashboard auth)
              /\ user (dashboard auth) !! "name"
                 = (<["token" := VStr "demo-token"]>
                    (<["name" := VStr "Administrator"]>
                    (<["role" := VStr "admin"]> (∅ : dict)))) !! "name".
Proof.
  apply (demo_login_then_dashboard Sample.env Sample.late
           Fixture.admin_credentials).
  reflexivity.
Defined.

(** X14: a token issued by [login] on a configured store is never accepted
    without a store: it cannot be the demo token. *)
Theorem issued_token_rejected_in_demo_mode env env' :
  require_auth None env' (Some (token_hex env 24))
  = Raise (HTTPException 401 "Invalid token")
  /\ require_auth None env' (Some ("Bearer " ++ token_hex env 24))
     = Raise (HTTPException 401 "Invalid token").
Proof.
  destruct (replace_Bearer_token env 24) as [H1 H2].
  assert (Hne : String.eqb (token_hex env 24) "demo-token" = false).
  { destruct (String.eqb_spec (token_hex env 24) "demo-token") as [E|_];
      [|reflexivity].
    pose proof (all_hex_token_hex env 24) as Hhex. rewrite E in Hhex.
    discriminate Hhex. }
  unfold require_auth. cbv zeta. rewrite H1, H2, Hne. split; reflexivity.
Qed.

End Demo.

(** ** The diagnostic route *)

Section Diagnostics.

Implicit Types (db : option Handle) (environ : gmap string string).



(** X15: what [test_database] reports as [database_url] and
    [database_name] depends on the two environment variables alone, never
    on the store handle or its name; the backend is always reported as
    running; the [database] field never keeps its initial text
    "Not Available", with no store it reads "Available but not
    initialized"; and the connection is reported exactly when a handle
    exists. *)
Theorem test_database_report db environ :
  backend (test_database db environ) = "✅ Running"
  /\ database_url (test_database db environ)
     = VStr (if getenv_truthy environ "DATABASE_URL"
             then "✅ Set" else "❌ Not Set")
  /\ database_name (test_database db environ)
     = VStr (if getenv_truthy environ "DATABASE_NAME"
             then "✅ Set" else "❌ Not Set")
  /\ database (test_database db environ) <> "❌ Not Available"
  /\ (db = None ->
      database (test_database db environ) = "⚠️  Available but not initialized"
      /\ connection_status (test_database db environ) = "Not Connected"
      /\ collections (test_database db environ) = [])
  /\ (db <> None ->
      connection_status (test_database db environ) = "Connected").
Proof.
  split; [now destruct db as [[nm [e|names]]|]|].
  split; [now destruct db as [[nm [e|names]]|]|].
  split; [now destruct db as [[nm [e|names]]|]|].
  split; [|split].
  - destruct db as [[nm [e|names]]|]; cbn; discriminate.
  - intros ->. repeat split.
  - destruct db as [[nm [e|names]]|]; [reflexivity..|congruence].
Qed.


Lemma test_database_report_witness :
  database (test_database None ∅) = "⚠️  Available but not initialized"
  /\ connection_status (test_database None ∅) = "Not Connected"
  /\ collections (test_database None ∅) = [].
Proof.
  destruct (test_database_report None ∅) as (_ & _ & _ & _ & Hnone & _).
  apply Hnone. reflexivity.
Defined.


Example test_database_twelve :
  collections (test_database (Some Fixture.twelve) ∅)
  = ["a"; "b"; "c"; "d"; "e"; "f"; "g"; "h"; "i"; "j"]
  /\ database_name (test_database (Some Fixture.twelve) ∅) = VStr "❌ Not Set".
Proof. split; by_evaluation. Qed.

Example take_chars_accented : take_chars 2 "déjà" = "dé".
Proof. by_evaluation. Qed.

End Diagnostics.
